(** * Spoolman bulk import: a shallow embedding of [spoolman/data_import.py]

    The development follows the Python module function by function:
    the record parsers ([parse_csv], [parse_json]), the field coercer
    ([_parse_value]), the extra-attribute extractor
    ([_extract_extra_fields]), the three orchestrators ([import_vendors],
    [import_filaments], [import_spools]) and the result aggregate
    ([ImportResult]), together with [_detect_format], [_do_import] and the
    three endpoints of [spoolman/api/v1/data_import.py], and the older
    copy of the module, [spoolman/import_data.py].

    Python values are a small inductive type, dictionaries are finite maps,
    exceptions and the mutable state (the [ImportResult] under construction
    and the database session) are threaded by a state-and-exception monad.
    Text is modelled as sequences of 8-bit characters; case mapping and
    white space are those of the ASCII range. *)

From Stdlib Require Import ZArith String Ascii List Lia.
From stdpp Require Import base option list sorting gmap strings pretty.

Set Warnings "-register-all".

Open Scope Z_scope.
Open Scope nat_scope.

(** ** Text helpers: the [str] methods the module calls *)

Module PyStr.

(** [c.lower()] on one character of the ASCII range. *)
Definition lower_char (c : ascii) : ascii :=
  let n := nat_of_ascii c in
  if (65 <=? n) && (n <=? 90) then ascii_of_nat (n + 32) else c.

(** [s.lower()] *)
Fixpoint lower (s : string) : string :=
  match s with
  | EmptyString => EmptyString
  | String c s' => String (lower_char c) (lower s')
  end.

(** The characters [str.strip()] removes: tab, line feed, vertical tab,
    form feed, carriage return, the four separators 28..31 and space. *)
Definition is_space (c : ascii) : bool :=
  let n := nat_of_ascii c in
  ((9 <=? n) && (n <=? 13)) || ((28 <=? n) && (n <=? 32)).

Fixpoint lstrip (s : string) : string :=
  match s with
  | EmptyString => EmptyString
  | String c s' => if is_space c then lstrip s' else s
  end.

(** [rstrip] drops the trailing run of white space: a character is kept
    when it is not white space or when something is kept after it. *)
Fixpoint rstrip (s : string) : string :=
  match s with
  | EmptyString => EmptyString
  | String c s' =>
      match rstrip s' with
      | EmptyString => if is_space c then EmptyString else String c EmptyString
      | r => String c r
      end
  end.

(** [s.strip()] *)
Definition strip (s : string) : string := rstrip (lstrip s).

(** [s.startswith(p)] *)
Fixpoint startswith (s p : string) {struct p} : bool :=
  match p, s with
  | EmptyString, _ => true
  | String a p', String b s' => if Ascii.eqb a b then startswith s' p' else false
  | String _ _, EmptyString => false
  end.

(** [s[n:]] *)
Fixpoint drop (n : nat) (s : string) : string :=
  match n, s with
  | O, _ => s
  | S n', String _ s' => drop n' s'
  | S _, EmptyString => EmptyString
  end.

(** [s in (a, b, ...)] for a tuple of string literals. *)
Definition mem (s : string) (l : list string) : bool :=
  existsb (String.eqb s) l.

(** [s.endswith(suffix)] *)
Definition endswith (s suffix : string) : bool :=
  (String.length suffix <=? String.length s)
  && String.eqb (drop (String.length s - String.length suffix) s) suffix.

End PyStr.
Global Arguments PyStr.mem : simpl never.
Global Arguments PyStr.lower : simpl never.

(** ** Python values *)

(** Dictionary keys as the parsers produce them: a string, or [None] (the
    key under which [csv.DictReader] files the surplus cells of a row that
    is longer than the header). *)
Abbreviation pykey := (option string).

Section Values.
(** [F] is the type of Python floats; the module never computes with
    them, it only obtains them from [float(...)] and passes them on. *)
Context {F : Type}.

Inductive pyval : Type :=
| PNone
| PBool (b : bool)
| PInt (z : Z)
| PFloat (f : F)
| PStr (s : string)
| PList (l : list pyval)
| PDict (d : gmap pykey pyval).

(** [type(v).__name__], as it appears in the messages of [AttributeError]. *)
Definition type_name (v : pyval) : string :=
  match v with
  | PNone => "NoneType"
  | PBool _ => "bool"
  | PInt _ => "int"
  | PFloat _ => "float"
  | PStr _ => "str"
  | PList _ => "list"
  | PDict _ => "dict"
  end.

End Values.
Global Arguments pyval : clear implicits.

(** ** Exceptions *)

(** The classes of [Exception] the module raises or can meet.
    [StoreError] stands for whatever [Exception] a database collaborator
    raises; [DecodeError] for a failure of [json.loads] or [csv.reader];
    [HTTPException] is what the endpoint layer raises. *)
Inductive exn : Type :=
| ImportDataError (msg : string)
| AttributeError (msg : string)
| ValueError (msg : string)
| DecodeError (msg : string)
| StoreError (msg : string)
| HTTPException (status_code : nat) (detail : string).

(** [str(e)] *)
Definition str_exn (e : exn) : string :=
  match e with
  | ImportDataError m | AttributeError m | ValueError m
  | DecodeError m | StoreError m => m
  | HTTPException c d => pretty c +:+ ": " +:+ d
  end.

Definition is_ValueError (e : exn) : bool :=
  match e with ValueError _ => true | _ => false end.

Definition is_ImportDataError (e : exn) : bool :=
  match e with ImportDataError _ => true | _ => false end.

(** A computation that returns or raises. *)
Inductive exc (A : Type) : Type :=
| Return (a : A)
| Raise (e : exn).
Global Arguments Return {A} a.
Global Arguments Raise {A} e.

Global Instance exc_ret : MRet exc := λ A a, Return a.
Global Instance exc_bind : MBind exc := λ A B f m,
  match m with
  | Return a => f a
  | Raise e => Raise e
  end.

Global Instance exc_fmap : FMap exc := λ A B f m,
  match m with
  | Return a => Return (f a)
  | Raise e => Raise e
  end.

(** [try: body except C as e: handler], where [catches] recognises [C]. *)
Definition exc_try {A} (body : exc A) (catches : exn → bool)
    (handler : exn → exc A) : exc A :=
  match body with
  | Return a => Return a
  | Raise e => if catches e then handler e else Raise e
  end.

(** [obj.attr] on a value whose type has no such attribute. *)
Definition no_attribute {F A} (v : pyval F) (attr : string) : exc A :=
  Raise (AttributeError
    ("'" +:+ type_name v +:+ "' object has no attribute '" +:+ attr +:+ "'")).

(** ** Built-in functions the module relies on *)

(** The conversions of the Python runtime are parameters of the model:
    [py_int s] and [py_float s] are [int(s)] and [float(s)] on a string,
    [None] standing for the [ValueError] they raise on text that is not a
    number; [float_nonzero] is the truth value of a float; [repr_float] and
    [repr_container] are [str(...)] on floats, lists and dictionaries;
    [json_loads] is [json.loads]. *)
Class PyBuiltins (F : Type) := {
  py_int : string → option Z;
  py_float : string → option F;
  float_nonzero : F → bool;
  repr_float : F → string;
  repr_container : pyval F → string;
  json_loads : string → exc (pyval F);
}.

Section Coercion.
Context {F : Type} `{!PyBuiltins F}.

(** [int(s)] and [float(s)] as computations. *)
Definition int_of_str (s : string) : exc (pyval F) :=
  match py_int s with
  | Some z => Return (PInt z)
  | None => Raise (ValueError ("invalid literal for int() with base 10: " +:+ s))
  end.

Definition float_of_str (s : string) : exc (pyval F) :=
  match py_float s with
  | Some f => Return (PFloat f)
  | None => Raise (ValueError ("could not convert string to float: " +:+ s))
  end.

(** [str(v)] *)
Definition py_str (v : pyval F) : string :=
  match v with
  | PNone => "None"
  | PBool true => "True"
  | PBool false => "False"
  | PInt z => pretty z
  | PFloat f => repr_float f
  | PStr s => s
  | PList _ | PDict _ => repr_container v
  end.

(** [bool(v)] *)
Definition truthy (v : pyval F) : bool :=
  match v with
  | PNone => false
  | PBool b => b
  | PInt z => negb (Z.eqb z 0)
  | PFloat f => float_nonzero f
  | PStr s => negb (String.eqb s "")
  | PList l => match l with [] => false | _ => true end
  | PDict d => negb (bool_decide (d = ∅))
  end.

(** [v == s] for a string [s]. *)
Definition eq_str (v : pyval F) (s : string) : bool :=
  match v with
  | PStr s' => String.eqb s' s
  | _ => false
  end.

(** [_parse_value(value, field_type)] *)
Definition _parse_value (value : pyval F) (field_type : string) : exc (pyval F) :=
  match value with
  | PNone => Return PNone
  | PStr s =>
      if String.eqb s "" then Return PNone
      else if PyStr.mem (PyStr.lower s) ["none"; "null"; ""] then Return PNone
      else if String.eqb field_type "int" then
        exc_try (int_of_str s) is_ValueError (λ _, Return PNone)
      else if String.eqb field_type "float" then
        exc_try (float_of_str s) is_ValueError (λ _, Return PNone)
      else if String.eqb field_type "bool" then
        Return (PBool (PyStr.mem (PyStr.lower s) ["true"; "1"; "yes"]))
      else Return value
  | _ => Return value
  end.

End Coercion.

(** ** The standard library's [csv.reader], default dialect

    [parse_csv] reads its input through [csv.DictReader(StringIO(content))].
    The reader is the state machine of CPython's [_csv] module for the
    [excel] dialect: fields separated by commas, fields quoted with the
    double quote character (doubled inside a quoted field), no escape
    character, not strict. *)

Module Csv.

Inductive parser_state :=
| START_RECORD | START_FIELD | IN_FIELD
| IN_QUOTED_FIELD | QUOTE_IN_QUOTED_FIELD | EAT_CRNL.

Record reader := {
  st : parser_state;
  fields : list string;     (* the fields of the record so far *)
  field : string;           (* the field being read *)
  field_len : N;
}.

Definition field_limit : N := 131072.
Definition delimiter : ascii := ",".
Definition quotechar : ascii := "034".

Definition is_newline (c : ascii) : bool :=
  Ascii.eqb c "010" || Ascii.eqb c "013".

(** [parse_reset] *)
Definition fresh : reader :=
  {| st := START_RECORD; fields := []; field := ""; field_len := 0 |}.

Definition set_st (s : parser_state) (r : reader) : reader :=
  {| st := s; fields := fields r; field := field r; field_len := field_len r |}.

(** [parse_save_field] *)
Definition save_field (r : reader) : reader :=
  {| st := st r; fields := fields r ++ [field r]; field := ""; field_len := 0 |}.

(** [parse_add_char] *)
Definition add_char (c : ascii) (r : reader) : exc reader :=
  if (field_limit <=? field_len r)%N then
    Raise (DecodeError "field larger than field limit (131072)")
  else
    Return {| st := st r; fields := fields r;
              field := field r +:+ String c "";
              field_len := N.succ (field_len r) |}.

(** The end of a field: at the end of the line ([None]) or at a line
    break character inside the line. *)
Definition end_record (c : option ascii) (r : reader) : reader :=
  set_st (match c with None => START_RECORD | Some _ => EAT_CRNL end)
         (save_field r).

Definition ends_line (c : option ascii) : bool :=
  match c with None => true | Some a => is_newline a end.

(** The case [START_FIELD], which [START_RECORD] falls through to. *)
Definition start_field (r : reader) (c : option ascii) : exc reader :=
  match c with
  | None => Return (end_record c r)
  | Some a =>
      if is_newline a then Return (end_record c r)
      else if Ascii.eqb a quotechar then Return (set_st IN_QUOTED_FIELD r)
      else if Ascii.eqb a delimiter then Return (set_st START_FIELD (save_field r))
      else set_st IN_FIELD <$> add_char a r
  end.

(** [parse_process_char]; [None] is the end-of-line marker the reader
    feeds after the last character of each line. *)
Definition process_char (r : reader) (c : option ascii) : exc reader :=
  match st r with
  | START_RECORD =>
      match c with
      | None => Return r
      | Some a =>
          if is_newline a then Return (set_st EAT_CRNL r)
          else start_field r c
      end
  | START_FIELD => start_field r c
  | IN_FIELD =>
      if ends_line c then Return (end_record c r)
      else match c with
           | Some a =>
               if Ascii.eqb a delimiter then Return (set_st START_FIELD (save_field r))
               else add_char a r
           | None => Return r
           end
  | IN_QUOTED_FIELD =>
      match c with
      | None => Return r
      | Some a =>
          if Ascii.eqb a quotechar then Return (set_st QUOTE_IN_QUOTED_FIELD r)
          else add_char a r
      end
  | QUOTE_IN_QUOTED_FIELD =>
      match c with
      | Some a =>
          if Ascii.eqb a quotechar then set_st IN_QUOTED_FIELD <$> add_char a r
          else if Ascii.eqb a delimiter then Return (set_st START_FIELD (save_field r))
          else if is_newline a then Return (end_record c r)
          else set_st IN_FIELD <$> add_char a r
      | None => Return (end_record c r)
      end
  | EAT_CRNL =>
      match c with
      | None => Return (set_st START_RECORD r)
      | Some a =>
          if is_newline a then Return r
          else Raise (DecodeError "new-line character seen in unquoted field - do you need to open the file with newline=''?")
      end
  end.

(** One line: its characters, then the end-of-line marker. *)
Fixpoint process_line (r : reader) (line : string) : exc reader :=
  match line with
  | EmptyString => process_char r None
  | String c line' => r' ← process_char r (Some c); process_line r' line'
  end.

(** Iterating over [StringIO(content)]: the lines, each with its
    terminating line feed. *)
Fixpoint splitlines (s : string) : list string :=
  match s with
  | EmptyString => []
  | String c s' =>
      if Ascii.eqb c "010" then String c "" :: splitlines s'
      else match splitlines s' with
           | [] => [String c ""]
           | l :: ls => String c l :: ls
           end
  end.

(** What iterating over the reader yields: rows, until the input is
    exhausted or the reader raises [csv.Error]. *)
Inductive rows :=
| Done
| Row (r : list string) (rest : rows)
| Error (msg : string).

(** At the end of the input a record is still pending when a field has
    characters or a quoted field is open. *)
Definition pending (r : reader) : bool :=
  negb (N.eqb (field_len r) 0) ||
  match st r with IN_QUOTED_FIELD => true | _ => false end.

Definition at_start_record (r : reader) : bool :=
  match st r with START_RECORD => true | _ => false end.

(** [Reader_iternext], repeated: lines are consumed until the parser is
    back at the start of a record. *)
Fixpoint read_rows (r : reader) (lines : list string) : rows :=
  match lines with
  | [] => if pending r then Row (fields (save_field r)) Done else Done
  | l :: ls =>
      match process_line r l with
      | Raise e => Error (str_exn e)
      | Return r' =>
          if at_start_record r' then Row (fields r') (read_rows fresh ls)
          else read_rows r' ls
      end
  end.

(** [csv.reader(StringIO(content))] *)
Definition csv_reader (content : string) : rows :=
  read_rows fresh (splitlines content).

(** Rows that are all blank: what [csv.DictReader] skips. *)
Fixpoint blank_rows (r : rows) : bool :=
  match r with
  | Done => true
  | Row [] rest => blank_rows rest
  | _ => false
  end.

(** Text without quote and without line break characters. *)
Definition plain_char (c : ascii) : bool :=
  negb (is_newline c) && negb (Ascii.eqb c quotechar).

Fixpoint plain (s : string) : bool :=
  match s with
  | EmptyString => true
  | String c s' => plain_char c && plain s'
  end.

Definition LF : string := String "010" "".
Definition CRLF : string := String "013" LF.

(** Outside a quoted field. *)
Definition unquoted (r : reader) : bool :=
  match st r with
  | START_RECORD | START_FIELD | IN_FIELD => true
  | _ => false
  end.

End Csv.

(** ** The record parsers *)

Section Parsers.
Context {F : Type} `{!PyBuiltins F}.

(** [DictReader.fieldnames]: the first row the reader yields, or [None]
    when it yields none; the rows after it are what is left to read. *)
Definition DictReader_fieldnames (reader : Csv.rows)
    : exc (option (list string) * Csv.rows) :=
  match reader with
  | Csv.Done => Return (None, Csv.Done)
  | Csv.Row header rest => Return (Some header, rest)
  | Csv.Error msg => Raise (DecodeError msg)
  end.

(** The dictionary [DictReader.__next__] builds from one row:
    [dict(zip(fieldnames, row))], the surplus cells of a long row under
    the key [None], the missing cells of a short row as [None]. *)
Definition DictReader_row (fieldnames row : list string) : pyval F :=
  let d := foldl (λ d '(k, v), <[Some k := PStr v]> d) ∅ (zip fieldnames row) in
  let lf := length fieldnames in
  let lr := length row in
  PDict
    (if lf <? lr then <[None := PList (PStr <$> drop lf row)]> d
     else foldl (λ d k, <[Some k := PNone]> d) d (drop lr fieldnames)).

(** [list(reader)] once the header is read: blank rows are skipped. *)
Fixpoint DictReader_list (fieldnames : list string) (reader : Csv.rows)
    : exc (list (pyval F)) :=
  match reader with
  | Csv.Done => Return []
  | Csv.Row [] rest => DictReader_list fieldnames rest
  | Csv.Row row rest =>
      l ← DictReader_list fieldnames rest;
      mret (DictReader_row fieldnames row :: l)
  | Csv.Error msg => Raise (DecodeError msg)
  end.

(** [parse_csv(content)] *)
Definition parse_csv (content : string) : exc (list (pyval F)) :=
  '(fieldnames, reader) ← DictReader_fieldnames (Csv.csv_reader content);
  match fieldnames with
  | None => Raise (ImportDataError "CSV file has no headers")
  | Some fieldnames => DictReader_list fieldnames reader
  end.

(** [parse_json(content)] *)
Definition parse_json (content : string) : exc (list (pyval F)) :=
  data ← json_loads content;
  match data with
  | PList l => Return l
  | _ => Raise (ImportDataError "JSON must contain an array of objects")
  end.

End Parsers.

(** ** Entities, entity inputs and the database collaborators *)

(** What the store hands back: the created or found entity. *)
Record Vendor := { Vendor_id : Z; Vendor_name : string }.
Record Filament := {
  Filament_id : Z;
  Filament_name : option string;
  Filament_vendor : option Vendor;
}.
Record Spool := { Spool_id : Z }.

Section Inputs.
Context {F : Type}.

(** The keyword arguments of [vendor.create]. *)
Record VendorInput := {
  v_name : string;
  v_comment : pyval F;
  v_empty_spool_weight : pyval F;
  v_external_id : pyval F;
  v_extra : option (gmap string string);
}.

(** The keyword arguments of [filament.create]. *)
Record FilamentInput := {
  f_name : option string;
  f_vendor_id : option Z;
  f_material : option string;
  f_price : pyval F;
  f_density : pyval F;
  f_diameter : pyval F;
  f_weight : pyval F;
  f_spool_weight : pyval F;
  f_article_number : option string;
  f_comment : pyval F;
  f_settings_extruder_temp : pyval F;
  f_settings_bed_temp : pyval F;
  f_color_hex : pyval F;
  f_multi_color_hexes : pyval F;
  f_multi_color_direction : pyval F;
  f_external_id : pyval F;
  f_extra : option (gmap string string);
}.

(** The keyword arguments of [spool.create]. *)
Record SpoolInput := {
  s_filament_id : Z;
  s_price : pyval F;
  s_initial_weight : pyval F;
  s_spool_weight : pyval F;
  s_used_weight : pyval F;
  s_remaining_weight : pyval F;
  s_location : option string;
  s_lot_nr : option string;
  s_comment : pyval F;
  s_archived : pyval F;
  s_extra : option (gmap string string);
}.

(** The calls an orchestrator makes on the store, in the order made. *)
Inductive call : Type :=
| CallVendorCreate (a : VendorInput)
| CallVendorFind (name : pyval F)
| CallFilamentCreate (a : FilamentInput)
| CallFilamentFind (name : pyval F)
| CallSpoolCreate (a : SpoolInput).

Definition is_create (c : call) : bool :=
  match c with
  | CallVendorCreate _ | CallFilamentCreate _ | CallSpoolCreate _ => true
  | _ => false
  end.

Definition is_find (c : call) : bool :=
  match c with
  | CallVendorFind _ | CallFilamentFind _ => true
  | _ => false
  end.

(** One failure detail of an [ImportResult]. *)
Record ErrorDetail := {
  row : nat;
  data : pyval F;
  error : string;
}.

(** [class ImportResult] *)
Record ImportResult := {
  created : nat;
  failed : nat;
  errors : list ErrorDetail;
}.

End Inputs.
Global Arguments VendorInput : clear implicits.
Global Arguments FilamentInput : clear implicits.
Global Arguments SpoolInput : clear implicits.
Global Arguments call : clear implicits.
Global Arguments ErrorDetail : clear implicits.
Global Arguments ImportResult : clear implicits.

(** The database modules [spoolman.database.vendor], [.filament] and
    [.spool] are outside the import core. Each operation takes the session
    state and returns the new one together with its result or the
    exception it raised; [find] returns the matches and their total count. *)
Class Store (F : Type) := {
  DB : Type;
  vendor_create : VendorInput F → DB → exc Vendor * DB;
  vendor_find : pyval F → DB → exc (list Vendor * nat) * DB;
  filament_create : FilamentInput F → DB → exc Filament * DB;
  filament_find : pyval F → DB → exc (list Filament * nat) * DB;
  spool_create : SpoolInput F → DB → exc Spool * DB;
}.

(** ** The state-and-exception monad of the orchestrators *)

Section Orchestrators.
Context {F : Type} `{!PyBuiltins F} `{!Store F}.

(** What a running import can change: the [ImportResult] it is filling,
    the database session, and (for the statements about which
    collaborator was invoked) the log of the calls made on the store. *)
Record state := {
  result : ImportResult F;
  db : DB;
  calls : list (call F);
}.

Definition M (A : Type) : Type := state → exc A * state.

#[global] Instance M_ret : MRet M := λ A a st, (Return a, st).
#[global] Instance M_bind : MBind M := λ A B f m st,
  match m st with
  | (Return a, st') => f a st'
  | (Raise e, st') => (Raise e, st')
  end.

(** A computation without effect on the state. *)
Definition lift {A} (c : exc A) : M A := λ st, (c, st).

(** [raise e] *)
Definition raise {A} (e : exn) : M A := λ st, (Raise e, st).

(** [try: body except Exception as e: handler(e)]; what the body did to
    the state before it raised stays done. *)
Definition try_except {A} (body : M A) (handler : exn → M A) : M A := λ st,
  match body st with
  | (Return a, st') => (Return a, st')
  | (Raise e, st') => handler e st'
  end.

(** [for x in l: body(x)] *)
Fixpoint for_each {A} (l : list A) (body : A → M unit) : M unit :=
  match l with
  | [] => mret ()
  | x :: l' => body x;; for_each l' body
  end.

(** [enumerate(l, start)] *)
Fixpoint enumerate {A} (l : list A) (start : nat) : list (nat * A) :=
  match l with
  | [] => []
  | x :: l' => (start, x) :: enumerate l' (S start)
  end.

(** [logger.info(...)] and [logger.exception(...)]: nothing the import
    result or the store can observe. The arguments of [logger.info] read
    the name and the identifier of the entity the creation call returned;
    the store returns entities that have them, so the reads do not raise. *)
Definition logger_info : M unit := mret ().
Definition logger_exception : M unit := mret ().

(** *** [ImportResult] *)

(** [ImportResult()] *)
Definition ImportResult_init : ImportResult F :=
  {| created := 0; failed := 0; errors := [] |}.

Definition set_result (r : ImportResult F) (st : state) : state :=
  {| result := r; db := db st; calls := calls st |}.

(** [result = ImportResult()] *)
Definition new_result : M unit := λ st,
  (Return (), set_result ImportResult_init st).

(** [result.created += 1] *)
Definition incr_created : M unit := λ st,
  let r := result st in
  (Return (),
   set_result {| created := S (created r); failed := failed r;
                 errors := errors r |} st).

(** [ImportResult.add_error(self, row_index, item_data, error)] *)
Definition ImportResult_add_error (row_index : nat) (item_data : pyval F)
    (err : string) (r : ImportResult F) : ImportResult F :=
  {| created := created r;
     failed := S (failed r);
     errors := errors r ++
               [{| row := row_index; data := item_data; error := err |}] |}.

(** [result.add_error(row_index, item_data, error)] *)
Definition add_error (row_index : nat) (item_data : pyval F)
    (err : string) : M unit := λ st,
  (Return (),
   set_result (ImportResult_add_error row_index item_data err (result st)) st).

(** [return result] *)
Definition get_result : M (ImportResult F) := λ st, (Return (result st), st).

(** *** Calls on the store *)

Definition await {A} (c : call F) (op : DB → exc A * DB) : M A := λ st,
  let '(r, d) := op (db st) in
  (r, {| result := result st; db := d; calls := calls st ++ [c] |}).

Definition await_vendor_create (a : VendorInput F) : M Vendor :=
  await (CallVendorCreate a) (vendor_create a).
Definition await_vendor_find (name : pyval F) : M (list Vendor * nat) :=
  await (CallVendorFind name) (vendor_find name).
Definition await_filament_create (a : FilamentInput F) : M Filament :=
  await (CallFilamentCreate a) (filament_create a).
Definition await_filament_find (name : pyval F) : M (list Filament * nat) :=
  await (CallFilamentFind name) (filament_find name).
Definition await_spool_create (a : SpoolInput F) : M Spool :=
  await (CallSpoolCreate a) (spool_create a).

(** *** Reading a record *)

(** [item.get(key)] *)
Definition dict_get (item : pyval F) (key : string) : exc (pyval F) :=
  match item with
  | PDict d => Return (default PNone (d !! Some key))
  | _ => no_attribute item "get"
  end.

(** [item.get(key, dflt)] *)
Definition dict_get_default (item : pyval F) (key : string)
    (dflt : pyval F) : exc (pyval F) :=
  match item with
  | PDict d => Return (default dflt (d !! Some key))
  | _ => no_attribute item "get"
  end.

(** [v.strip()] *)
Definition str_strip (v : pyval F) : exc string :=
  match v with
  | PStr s => Return (PyStr.strip s)
  | _ => no_attribute v "strip"
  end.

(** [item.get(key, "").strip() if item.get(key) else None] *)
Definition get_stripped (item : pyval F) (key : string) : exc (option string) :=
  c ← dict_get item key;
  if truthy c then
    v ← dict_get_default item key (PStr "");
    s ← str_strip v;
    mret (Some s)
  else mret None.

(** [_parse_value(item.get(key), field_type)] *)
Definition get_parsed (item : pyval F) (key field_type : string) : exc (pyval F) :=
  v ← dict_get item key;
  _parse_value v field_type.

(** *** [_extract_extra_fields] *)

(** [str(value) if value is not None else ""] *)
Definition str_or_empty (value : pyval F) : string :=
  match value with
  | PNone => ""
  | _ => py_str value
  end.

(** One turn of the loop over [data.items()]. *)
Definition extra_step (key : pykey) (value : pyval F)
    (acc : exc (gmap string string)) : exc (gmap string string) :=
  extra ← acc;
  match key with
  | None => no_attribute (@PNone F) "startswith"
  | Some k =>
      if PyStr.startswith k "extra." then
        mret (<[PyStr.drop 6 k := str_or_empty value]> extra)
      else mret extra
  end.

(** [_extract_extra_fields(data)] *)
Definition _extract_extra_fields (data : pyval F) : exc (gmap string string) :=
  match data with
  | PDict d => map_fold extra_step (Return ∅) d
  | _ => no_attribute data "items"
  end.

(** [extra if extra else None] *)
Definition extra_or_none (extra : gmap string string) : option (gmap string string) :=
  if bool_decide (extra = ∅) then None else Some extra.

(** *** [import_vendors] *)

Definition is_None (v : pyval F) : bool :=
  match v with PNone => true | _ => false end.

(** [if cond: raise e] *)
Definition raise_if (cond : bool) (e : exn) : M unit :=
  if cond then raise e else mret ().

(** The body of the [try] block of [import_vendors], for one record. *)
Definition vendor_row (item_data : pyval F) : M unit :=
  name ← lift (v ← dict_get_default item_data "name" (PStr ""); str_strip v);
  comment ← lift (dict_get item_data "comment");
  empty_spool_weight ← lift (get_parsed item_data "empty_spool_weight" "float");
  external_id ← lift (dict_get item_data "external_id");
  extra ← lift (_extract_extra_fields item_data);
  raise_if (String.eqb name "") (ImportDataError "'name' is required");;
  new_vendor ← await_vendor_create
    {| v_name := name;
       v_comment := comment;
       v_empty_spool_weight := empty_spool_weight;
       v_external_id := external_id;
       v_extra := extra_or_none extra |};
  incr_created;;
  logger_info.

(** The loop shared by the three orchestrators:
    [for row_index, item_data in enumerate(data, 1): try: ... except
    Exception as e: result.add_error(row_index, item_data, str(e))]. *)
Definition import_rows (body : pyval F → M unit) (rows : list (nat * pyval F)) : M unit :=
  for_each rows (λ '(row_index, item_data),
    try_except (body item_data)
      (λ e, add_error row_index item_data (str_exn e);; logger_exception)).

Definition import_vendors (data : list (pyval F)) : M (ImportResult F) :=
  new_result;;
  import_rows vendor_row (enumerate data 1);;
  get_result.

(** *** [import_filaments] *)

(** The vendor lookup of [import_filaments]:
    [vendor_id = None; if vendor_name: ... vendor_id = found_vendors[0].id]. *)
Definition resolve_vendor (vendor_name : pyval F) : M (option Z) :=
  if truthy vendor_name then
    '(found_vendors, _) ← await_vendor_find vendor_name;
    match found_vendors with
    | v :: _ => mret (Some (Vendor_id v))
    | [] => mret None
    end
  else mret None.

(** The body of the [try] block of [import_filaments]. *)
Definition filament_row (item_data : pyval F) : M unit :=
  name ← lift (get_stripped item_data "name");
  material ← lift (get_stripped item_data "material");
  price ← lift (get_parsed item_data "price" "float");
  density ← lift (get_parsed item_data "density" "float");
  diameter ← lift (get_parsed item_data "diameter" "float");
  weight ← lift (get_parsed item_data "weight" "float");
  spool_weight ← lift (get_parsed item_data "spool_weight" "float");
  article_number ← lift (get_stripped item_data "article_number");
  comment ← lift (dict_get item_data "comment");
  settings_extruder_temp ← lift (get_parsed item_data "settings_extruder_temp" "int");
  settings_bed_temp ← lift (get_parsed item_data "settings_bed_temp" "int");
  color_hex ← lift (dict_get item_data "color_hex");
  multi_color_hexes ← lift (dict_get item_data "multi_color_hexes");
  multi_color_direction ← lift (dict_get item_data "multi_color_direction");
  external_id ← lift (dict_get item_data "external_id");
  extra ← lift (_extract_extra_fields item_data);
  raise_if (is_None density) (ImportDataError "'density' is required");;
  raise_if (is_None diameter) (ImportDataError "'diameter' is required");;
  vendor_name ← lift (dict_get item_data "vendor.name");
  vendor_id ← resolve_vendor vendor_name;
  new_filament ← await_filament_create
    {| f_name := name;
       f_vendor_id := vendor_id;
       f_material := material;
       f_price := price;
       f_density := density;
       f_diameter := diameter;
       f_weight := weight;
       f_spool_weight := spool_weight;
       f_article_number := article_number;
       f_comment := comment;
       f_settings_extruder_temp := settings_extruder_temp;
       f_settings_bed_temp := settings_bed_temp;
       f_color_hex := color_hex;
       f_multi_color_hexes := multi_color_hexes;
       f_multi_color_direction := multi_color_direction;
       f_external_id := external_id;
       f_extra := extra_or_none extra |};
  incr_created;;
  logger_info.

Definition import_filaments (data : list (pyval F)) : M (ImportResult F) :=
  new_result;;
  import_rows filament_row (enumerate data 1);;
  get_result.

(** *** [import_spools] *)

(** [f.vendor and f.vendor.name == vendor_name] *)
Definition vendor_matches (vendor_name : pyval F) (f : Filament) : bool :=
  match Filament_vendor f with
  | Some v => eq_str vendor_name (Vendor_name v)
  | None => false
  end.

(** The candidates left after the optional filter on the vendor name. *)
Definition filter_by_vendor (vendor_name : pyval F)
    (found_filaments : list Filament) : list Filament :=
  if truthy vendor_name then List.filter (vendor_matches vendor_name) found_filaments
  else found_filaments.

(** The filament lookup of [import_spools]:
    [filament_id = None; if filament_name: ... filament_id = found_filaments[0].id]. *)
Definition resolve_filament (filament_name vendor_name : pyval F) : M (option Z) :=
  if truthy filament_name then
    '(found_filaments, _) ← await_filament_find filament_name;
    match filter_by_vendor vendor_name found_filaments with
    | f :: _ => mret (Some (Filament_id f))
    | [] => mret None
    end
  else mret None.

(** The body of the [try] block of [import_spools]. *)
Definition spool_row (item_data : pyval F) : M unit :=
  price ← lift (get_parsed item_data "price" "float");
  initial_weight ← lift (get_parsed item_data "initial_weight" "float");
  spool_weight ← lift (get_parsed item_data "spool_weight" "float");
  used_weight ← lift (get_parsed item_data "used_weight" "float");
  remaining_weight ← lift (get_parsed item_data "remaining_weight" "float");
  location ← lift (get_stripped item_data "location");
  lot_nr ← lift (get_stripped item_data "lot_nr");
  comment ← lift (dict_get item_data "comment");
  archived ← lift (get_parsed item_data "archived" "bool");
  extra ← lift (_extract_extra_fields item_data);
  filament_name ← lift (dict_get item_data "filament.name");
  vendor_name ← lift (dict_get item_data "filament.vendor.name");
  filament_id ← resolve_filament filament_name vendor_name;
  match filament_id with
  | None =>
      raise (ImportDataError ("Could not find filament: " +:+ py_str filament_name))
  | Some filament_id =>
      new_spool ← await_spool_create
        {| s_filament_id := filament_id;
           s_price := price;
           s_initial_weight := initial_weight;
           s_spool_weight := spool_weight;
           s_used_weight := used_weight;
           s_remaining_weight := remaining_weight;
           s_location := location;
           s_lot_nr := lot_nr;
           s_comment := comment;
           s_archived := archived;
           s_extra := extra_or_none extra |};
      incr_created;;
      logger_info
  end.

Definition import_spools (data : list (pyval F)) : M (ImportResult F) :=
  new_result;;
  import_rows spool_row (enumerate data 1);;
  get_result.

(** *** [_do_import] of the endpoint module *)

Inductive FileFormat := CSV | JSON.

Record ImportItemError := { item_row : nat; item_error : string }.

Record ImportResponse := {
  resp_created : nat;
  resp_failed : nat;
  resp_errors : list ImportItemError;
}.

Definition to_response (r : ImportResult F) : ImportResponse :=
  {| resp_created := created r;
     resp_failed := failed r;
     resp_errors :=
       (λ e, {| item_row := row e; item_error := error e |}) <$> errors r |}.

(** [_do_import(db, resource, content, file_format)] *)
Definition _do_import (resource content : string) (file_format : FileFormat)
    : M ImportResponse :=
  try_except
    (data ← lift (match file_format with
                  | CSV => parse_csv content
                  | JSON => parse_json content
                  end);
     r ← (if String.eqb resource "vendors" then import_vendors data
          else if String.eqb resource "filaments" then import_filaments data
          else if String.eqb resource "spools" then import_spools data
          else raise (ImportDataError ("Unknown resource type: " +:+ resource)));
     mret (to_response r))
    (λ e,
       if is_ImportDataError e then raise (HTTPException 400 (str_exn e))
       else raise (HTTPException 500 ("Unexpected error: " +:+ str_exn e))).

End Orchestrators.

(** ** The endpoints of [spoolman/api/v1/data_import.py] *)

Section Endpoints.
Context {F : Type} `{!PyBuiltins F} `{!Store F}.

(** [_detect_format(filename)] *)
Definition _detect_format (filename : string) : exc FileFormat :=
  if PyStr.endswith filename ".csv" then Return CSV
  else if PyStr.endswith filename ".json" then Return JSON
  else Raise (ValueError "Unsupported file format. Use .csv or .json files.").

(** What an endpoint uses of the [UploadFile] it is given: its name, and
    the bytes [await file.read()] yields or the exception it raises. *)
Record UploadFile := {
  UploadFile_filename : option string;
  UploadFile_read : exc string;
}.

(** [content.decode("utf-8")] is a parameter of the endpoints: the text of
    the bytes, or the exception raised on bytes that are not UTF-8. *)
Context (decode_utf8 : string → exc string).

(** The three endpoints have the same body and differ only in the
    resource they name to [_do_import]:
    [try: content = await file.read(); text_content = content.decode("utf-8");
    file_format = await _detect_format(file.filename or empty);
    return await _do_import(db, resource, text_content, file_format)
    except Exception as e: raise HTTPException(status_code=400, detail=str(e))],
    where [empty] is the empty string. *)
Definition import_endpoint (resource : string) (file : UploadFile)
    : M ImportResponse :=
  try_except
    (content ← lift (UploadFile_read file);
     text_content ← lift (decode_utf8 content);
     file_format ← lift (_detect_format (default "" (UploadFile_filename file)));
     _do_import resource text_content file_format)
    (λ e, raise (HTTPException 400 (str_exn e))).

Definition import_vendors_endpoint : UploadFile → M ImportResponse :=
  import_endpoint "vendors".

Definition import_filaments_endpoint : UploadFile → M ImportResponse :=
  import_endpoint "filaments".

Definition import_spools_endpoint : UploadFile → M ImportResponse :=
  import_endpoint "spools".

End Endpoints.

(** ** The older copy of the module, [spoolman/import_data.py]

    The file [spoolman/import_data.py] holds the same functions under the
    same names. It differs from [spoolman/data_import.py] in the exception
    class it raises, in a second argument of [_extract_extra_fields] (the
    set of the known field names of the entity), in one more read at the
    start of [import_vendors], and in its logging calls. *)

Module Legacy.
Section Legacy.
Context {F : Type} `{!PyBuiltins F} `{!Store F}.

(** [class ImportError(Exception)], the exception class this module
    declares for itself: a class of [Exception] of its own, of which the
    module uses the constructor and, through [except Exception], the
    message. The definitions are parameterised by it. *)
Context (ImportError : string → exn).

(** [parse_csv(content)], which ends in [[row for row in reader]]. *)
Definition parse_csv (content : string) : exc (list (pyval F)) :=
  '(fieldnames, reader) ← DictReader_fieldnames (Csv.csv_reader content);
  match fieldnames with
  | None => Raise (ImportError "CSV file has no headers")
  | Some fieldnames => DictReader_list fieldnames reader
  end.

(** [parse_json(content)] *)
Definition parse_json (content : string) : exc (list (pyval F)) :=
  data ← json_loads content;
  match data with
  | PList l => Return l
  | _ => Raise (ImportError "JSON must contain an array of objects")
  end.

(** [_parse_value(value, field_type)] *)
Definition _parse_value (value : pyval F) (field_type : string) : exc (pyval F) :=
  match value with
  | PNone => Return PNone
  | PStr s =>
      if String.eqb s "" then Return PNone
      else if PyStr.mem (PyStr.lower s) ["none"; "null"; ""] then Return PNone
      else if String.eqb field_type "int" then
        exc_try (int_of_str s) is_ValueError (λ _, Return PNone)
      else if String.eqb field_type "float" then
        exc_try (float_of_str s) is_ValueError (λ _, Return PNone)
      else if String.eqb field_type "bool" then
        Return (PBool (PyStr.mem (PyStr.lower s) ["true"; "1"; "yes"]))
      else Return value
  | _ => Return value
  end.

(** [_parse_value(item.get(key), field_type)] *)
Definition get_parsed (item : pyval F) (key field_type : string) : exc (pyval F) :=
  v ← dict_get item key;
  _parse_value v field_type.

(** [_extract_extra_fields(data, known_fields)]; the body does not use
    [known_fields]. *)
Definition _extract_extra_fields (data : pyval F) (known_fields : gset string)
    : exc (gmap string string) :=
  match data with
  | PDict d => map_fold extra_step (Return ∅) d
  | _ => no_attribute data "items"
  end.

(** [logger.error(...)] *)
Definition logger_error : M unit := mret ().

(** The loop of the three orchestrators:
    [for row_index, item_data in enumerate(data, 1): try: ... except
    Exception as e: result.add_error(row_index, item_data, str(e));
    logger.error(...)]. The class [ImportResult] is the same in both
    modules. *)
Definition import_rows (body : pyval F → M unit) (rows : list (nat * pyval F)) : M unit :=
  for_each rows (λ '(row_index, item_data),
    try_except (body item_data)
      (λ e, add_error row_index item_data (str_exn e);; logger_error)).

Definition vendor_fields : gset string :=
  list_to_set ["id"; "registered"; "name"; "comment"; "empty_spool_weight";
               "external_id"].

(** The body of the [try] block of [import_vendors]; it starts by
    reading [item_data.get("id")], which it does not use. *)
Definition vendor_row (item_data : pyval F) : M unit :=
  vendor_id ← lift (dict_get item_data "id");
  name ← lift (v ← dict_get_default item_data "name" (PStr ""); str_strip v);
  comment ← lift (dict_get item_data "comment");
  empty_spool_weight ← lift (get_parsed item_data "empty_spool_weight" "float");
  external_id ← lift (dict_get item_data "external_id");
  extra ← lift (_extract_extra_fields item_data vendor_fields);
  raise_if (String.eqb name "") (ImportError "'name' is required");;
  new_vendor ← await_vendor_create
    {| v_name := name;
       v_comment := comment;
       v_empty_spool_weight := empty_spool_weight;
       v_external_id := external_id;
       v_extra := extra_or_none extra |};
  incr_created;;
  logger_info.

Definition import_vendors (data : list (pyval F)) : M (ImportResult F) :=
  new_result;;
  import_rows vendor_row (enumerate data 1);;
  get_result.

Definition filament_fields : gset string :=
  list_to_set ["id"; "registered"; "name"; "vendor.id"; "vendor.name";
               "material"; "price"; "density"; "diameter"; "weight";
               "spool_weight"; "article_number"; "comment";
               "settings_extruder_temp"; "settings_bed_temp"; "color_hex";
               "multi_color_hexes"; "multi_color_direction"; "external_id"].

(** The body of the [try] block of [import_filaments]. *)
Definition filament_row (item_data : pyval F) : M unit :=
  name ← lift (get_stripped item_data "name");
  material ← lift (get_stripped item_data "material");
  price ← lift (get_parsed item_data "price" "float");
  density ← lift (get_parsed item_data "density" "float");
  diameter ← lift (get_parsed item_data "diameter" "float");
  weight ← lift (get_parsed item_data "weight" "float");
  spool_weight ← lift (get_parsed item_data "spool_weight" "float");
  article_number ← lift (get_stripped item_data "article_number");
  comment ← lift (dict_get item_data "comment");
  settings_extruder_temp ← lift (get_parsed item_data "settings_extruder_temp" "int");
  settings_bed_temp ← lift (get_parsed item_data "settings_bed_temp" "int");
  color_hex ← lift (dict_get item_data "color_hex");
  multi_color_hexes ← lift (dict_get item_data "multi_color_hexes");
  multi_color_direction ← lift (dict_get item_data "multi_color_direction");
  external_id ← lift (dict_get item_data "external_id");
  extra ← lift (_extract_extra_fields item_data filament_fields);
  raise_if (is_None density) (ImportError "'density' is required");;
  raise_if (is_None diameter) (ImportError "'diameter' is required");;
  vendor_name ← lift (dict_get item_data "vendor.name");
  vendor_id ← resolve_vendor vendor_name;
  new_filament ← await_filament_create
    {| f_name := name;
       f_vendor_id := vendor_id;
       f_material := material;
       f_price := price;
       f_density := density;
       f_diameter := diameter;
       f_weight := weight;
       f_spool_weight := spool_weight;
       f_article_number := article_number;
       f_comment := comment;
       f_settings_extruder_temp := settings_extruder_temp;
       f_settings_bed_temp := settings_bed_temp;
       f_color_hex := color_hex;
       f_multi_color_hexes := multi_color_hexes;
       f_multi_color_direction := multi_color_direction;
       f_external_id := external_id;
       f_extra := extra_or_none extra |};
  incr_created;;
  logger_info.

Definition import_filaments (data : list (pyval F)) : M (ImportResult F) :=
  new_result;;
  import_rows filament_row (enumerate data 1);;
  get_result.

Definition spool_fields : gset string :=
  list_to_set ["id"; "registered"; "first_used"; "last_used"; "price";
               "filament.id"; "filament.name"; "filament.vendor.name";
               "initial_weight"; "spool_weight"; "used_weight";
               "remaining_weight"; "location"; "lot_nr"; "comment"; "archived"].

(** The body of the [try] block of [import_spools]. *)
Definition spool_row (item_data : pyval F) : M unit :=
  price ← lift (get_parsed item_data "price" "float");
  initial_weight ← lift (get_parsed item_data "initial_weight" "float");
  spool_weight ← lift (get_parsed item_data "spool_weight" "float");
  used_weight ← lift (get_parsed item_data "used_weight" "float");
  remaining_weight ← lift (get_parsed item_data "remaining_weight" "float");
  location ← lift (get_stripped item_data "location");
  lot_nr ← lift (get_stripped item_data "lot_nr");
  comment ← lift (dict_get item_data "comment");
  archived ← lift (get_parsed item_data "archived" "bool");
  extra ← lift (_extract_extra_fields item_data spool_fields);
  filament_name ← lift (dict_get item_data "filament.name");
  vendor_name ← lift (dict_get item_data "filament.vendor.name");
  filament_id ← resolve_filament filament_name vendor_name;
  match filament_id with
  | None =>
      raise (ImportError ("Could not find filament: " +:+ py_str filament_name))
  | Some filament_id =>
      new_spool ← await_spool_create
        {| s_filament_id := filament_id;
           s_price := price;
           s_initial_weight := initial_weight;
           s_spool_weight := spool_weight;
           s_used_weight := used_weight;
           s_remaining_weight := remaining_weight;
           s_location := location;
           s_lot_nr := lot_nr;
           s_comment := comment;
           s_archived := archived;
           s_extra := extra_or_none extra |};
      incr_created;;
      logger_info
  end.

Definition import_spools (data : list (pyval F)) : M (ImportResult F) :=
  new_result;;
  import_rows spool_row (enumerate data 1);;
  get_result.

End Legacy.
End Legacy.

(** ** A small runtime and an in-memory store

    An instance of the two interfaces on which the model runs: decimal
    numbers for floats, a decoder for a subset of JSON, and a store that keeps
    its entities in lists. *)

Module Example.

(** A float given by a decimal literal: [mantissa / 10 ^ decimals]. *)
Record Dec := { mantissa : Z; decimals : nat }.

Definition digit (c : ascii) : option N :=
  let n := N_of_ascii c in
  if ((48 <=? n) && (n <=? 57))%N then Some (n - 48)%N else None.

(** The value of a run of digits, continuing from [acc]. *)
Fixpoint digits (s : string) (acc : N) : option N :=
  match s with
  | EmptyString => Some acc
  | String c s' =>
      match digit c with
      | Some d => digits s' (10 * acc + d)%N
      | None => None
      end
  end.

Definition signed (s : string) : bool * string :=
  match s with
  | String "-" s' => (true, s')
  | String "+" s' => (false, s')
  | _ => (false, s)
  end.

Definition apply_sign (neg : bool) (n : N) : Z :=
  if neg then (- Z.of_N n)%Z else Z.of_N n.

(** [int(s)] on decimal literals, white space around them allowed. *)
Definition int_literal (s : string) : option Z :=
  let '(neg, body) := signed (PyStr.strip s) in
  match body with
  | EmptyString => None
  | _ => apply_sign neg <$> digits body 0
  end.

(** The text before and after the first dot. *)
Fixpoint split_dot (s : string) : string * option string :=
  match s with
  | EmptyString => (EmptyString, None)
  | String "." s' => (EmptyString, Some s')
  | String c s' => let '(a, b) := split_dot s' in (String c a, b)
  end.

(** [float(s)] on decimal literals without exponent. *)
Definition float_literal (s : string) : option Dec :=
  let '(neg, body) := signed (PyStr.strip s) in
  let '(whole, frac) := split_dot body in
  let frac := default EmptyString frac in
  match whole +:+ frac with
  | EmptyString => None
  | all => (λ n, {| mantissa := apply_sign neg n;
                    decimals := String.length frac |}) <$> digits all 0
  end.

(** [n] zeros in front of [s]. *)
Fixpoint pad_zeros (n : nat) (s : string) : string :=
  match n with
  | O => s
  | S n' => pad_zeros n' (String "0" s)
  end.

(** [repr(f)]: the whole part, a dot, the decimals. *)
Definition repr_dec (f : Dec) : string :=
  let scale := (10 ^ Z.of_nat (decimals f))%Z in
  let m := Z.abs (mantissa f) in
  let sign := if (mantissa f <? 0)%Z then "-" else "" in
  let frac := match decimals f with
              | O => "0"
              | d => let digits := pretty (m mod scale)%Z in
                     pad_zeros (d - String.length digits) digits
              end in
  sign +:+ pretty (m / scale)%Z +:+ "." +:+ frac.

(** [str] of a list or dictionary, abbreviated. *)
Definition repr_short (v : pyval Dec) : string :=
  match v with
  | PList [] => "[]"
  | PList _ => "[...]"
  | PDict d => if bool_decide (d = ∅) then "{}" else "{...}"
  | _ => ""
  end.

(** *** A decoder for a subset of JSON: [null], [true], [false], decimal
    numbers, strings without escapes, arrays and objects. *)

Definition is_ws (c : ascii) : bool :=
  Ascii.eqb c " " || Ascii.eqb c "009" || Ascii.eqb c "010" || Ascii.eqb c "013".

Fixpoint skip_ws (s : string) : string :=
  match s with
  | String c s' => if is_ws c then skip_ws s' else s
  | EmptyString => s
  end.

(** The text up to the closing quote, and what follows it. *)
Fixpoint until_quote (s : string) : option (string * string) :=
  match s with
  | EmptyString => None
  | String c s' =>
      if Ascii.eqb c "034" then Some (EmptyString, s')
      else '(a, b) ← until_quote s'; Some (String c a, b)
  end.

Definition is_number_char (c : ascii) : bool :=
  match digit c with
  | Some _ => true
  | None => Ascii.eqb c "-" || Ascii.eqb c "+" || Ascii.eqb c "."
  end.

Fixpoint span_number (s : string) : string * string :=
  match s with
  | String c s' =>
      if is_number_char c then let '(a, b) := span_number s' in (String c a, b)
      else (EmptyString, s)
  | EmptyString => (EmptyString, EmptyString)
  end.

Definition number (s : string) : option (pyval Dec * string) :=
  let '(lit, rest) := span_number s in
  match int_literal lit with
  | Some z => Some (PInt z, rest)
  | None => (λ f, (PFloat f, rest)) <$> float_literal lit
  end.

Definition keyword (s : string) : option (pyval Dec * string) :=
  if PyStr.startswith s "null" then Some (PNone, PyStr.drop 4 s)
  else if PyStr.startswith s "true" then Some (PBool true, PyStr.drop 4 s)
  else if PyStr.startswith s "false" then Some (PBool false, PyStr.drop 5 s)
  else None.

Fixpoint value (fuel : nat) (s : string) {struct fuel}
    : option (pyval Dec * string) :=
  match fuel with
  | O => None
  | S fuel =>
      match skip_ws s with
      | String "034" s' =>
          '(str, rest) ← until_quote s'; Some (PStr str, rest)
      | String "[" s' =>
          match skip_ws s' with
          | String "]" rest => Some (PList [], rest)
          | _ => '(l, rest) ← elements fuel s'; Some (PList l, rest)
          end
      | String "{" s' =>
          match skip_ws s' with
          | String "}" rest => Some (PDict ∅, rest)
          | _ => '(d, rest) ← members fuel s' ∅; Some (PDict d, rest)
          end
      | s' =>
          match keyword s' with
          | Some r => Some r
          | None => number s'
          end
      end
  end
with elements (fuel : nat) (s : string) {struct fuel}
    : option (list (pyval Dec) * string) :=
  match fuel with
  | O => None
  | S fuel =>
      '(v, rest) ← value fuel s;
      match skip_ws rest with
      | String "," rest' =>
          '(l, rest'') ← elements fuel rest'; Some (v :: l, rest'')
      | String "]" rest' => Some ([v], rest')
      | _ => None
      end
  end
with members (fuel : nat) (s : string) (d : gmap pykey (pyval Dec)) {struct fuel}
    : option (gmap pykey (pyval Dec) * string) :=
  match fuel with
  | O => None
  | S fuel =>
      match skip_ws s with
      | String "034" s' =>
          '(key, rest) ← until_quote s';
          match skip_ws rest with
          | String ":" rest' =>
              '(v, rest'') ← value fuel rest';
              let d' := <[Some key := v]> d in
              match skip_ws rest'' with
              | String "," rest3 => members fuel rest3 d'
              | String "}" rest3 => Some (d', rest3)
              | _ => None
              end
          | _ => None
          end
      | _ => None
      end
  end.

Definition decode (s : string) : exc (pyval Dec) :=
  match value (S (String.length s)) s with
  | Some (v, rest) =>
      match skip_ws rest with
      | EmptyString => Return v
      | _ => Raise (DecodeError "Extra data")
      end
  | None => Raise (DecodeError "Expecting value")
  end.

#[global] Instance builtins : PyBuiltins Dec := {|
  py_int := int_literal;
  py_float := float_literal;
  float_nonzero := λ f, negb (Z.eqb (mantissa f) 0);
  repr_float := repr_dec;
  repr_container := repr_short;
  json_loads := decode;
|}.

(** *** The store *)

Record Tables := {
  vendors : list Vendor;
  filaments : list Filament;
  spools : list Spool;
  next_id : Z;
}.

Definition empty_tables : Tables :=
  {| vendors := []; filaments := []; spools := []; next_id := 1 |}.

(** Lookups by name want a string. *)
Definition by_name {A} (name_of : A → option string) (name : pyval Dec)
    (table : list A) : exc (list A * nat) :=
  match name with
  | PStr s =>
      let found := List.filter (λ x, bool_decide (name_of x = Some s)) table in
      Return (found, length found)
  | _ => Raise (StoreError "name must be a string")
  end.

Definition create_vendor (a : VendorInput Dec) (t : Tables) : exc Vendor * Tables :=
  if (64 <? String.length (v_name a))%nat then
    (Raise (StoreError "vendor name is too long"), t)
  else
    let v := {| Vendor_id := next_id t; Vendor_name := v_name a |} in
    (Return v,
     {| vendors := vendors t ++ [v]; filaments := filaments t;
        spools := spools t; next_id := (next_id t + 1)%Z |}).

Definition create_filament (a : FilamentInput Dec) (t : Tables)
    : exc Filament * Tables :=
  let owner :=
    vid ← f_vendor_id a;
    head (List.filter (λ v, Z.eqb (Vendor_id v) vid) (vendors t)) in
  let f := {| Filament_id := next_id t; Filament_name := f_name a;
              Filament_vendor := owner |} in
  (Return f,
   {| vendors := vendors t; filaments := filaments t ++ [f];
      spools := spools t; next_id := (next_id t + 1)%Z |}).

Definition create_spool (a : SpoolInput Dec) (t : Tables) : exc Spool * Tables :=
  let sp := {| Spool_id := next_id t |} in
  (Return sp,
   {| vendors := vendors t; filaments := filaments t;
      spools := spools t ++ [sp]; next_id := (next_id t + 1)%Z |}).

#[global] Instance store : Store Dec := {|
  DB := Tables;
  vendor_create := create_vendor;
  vendor_find := λ name t, (by_name (Some ∘ Vendor_name) name (vendors t), t);
  filament_create := create_filament;
  filament_find := λ name t, (by_name Filament_name name (filaments t), t);
  spool_create := create_spool;
|}.

(** A fresh session: empty tables, a new result, no call made yet. *)
Definition start (t : Tables) : state :=
  {| result := ImportResult_init; db := t; calls := [] |}.

(** A dictionary with string keys, given by its items. *)
Definition fields (items : list (string * pyval Dec)) : gmap pykey (pyval Dec) :=
  list_to_map (prod_map Some id <$> items).

(** A record given by its items. *)
Definition record (items : list (string * pyval Dec)) : pyval Dec :=
  PDict (fields items).

(** Tables with one vendor and one filament of that vendor. *)
Definition stocked : Tables :=
  let acme := {| Vendor_id := 1; Vendor_name := "Acme" |} in
  {| vendors := [acme];
     filaments := [{| Filament_id := 2; Filament_name := Some "PLA";
                      Filament_vendor := Some acme |}];
     spools := [];
     next_id := 3 |}.

(** *** Records for the worked examples *)

Definition red_vendor : gmap pykey (pyval Dec) :=
  fields [("name", PStr "Acme"); ("extra.color", PStr "red");
          ("extra.note", PNone)].

Definition header_only : string := "name,comment,empty_spool_weight" +:+ Csv.LF.

(** A spool of PLA by a vendor the store does not know: the filament is
    found by its name and dropped by the filter on the vendor name. *)
Definition stray_spool : gmap pykey (pyval Dec) :=
  fields [("filament.name", PStr "PLA"); ("filament.vendor.name", PStr "Other");
          ("location", PStr " shelf 3 ")].

(** A spool whose location is the number 5 and whose filament is not in
    the store: the record fails on [.strip()], and the only failure
    detail does not name the filament. *)
Definition odd_spool : gmap pykey (pyval Dec) :=
  fields [("location", PInt 5); ("filament.name", PStr "PETG")].

Definition blank_vendor : gmap pykey (pyval Dec) :=
  fields [("name", PStr "   "); ("comment", PStr "no name")].




Definition plain_filament : gmap pykey (pyval Dec) :=
  fields [("name", PStr "PLA"); ("density", PStr "1.24"); ("diameter", PStr "1.75");
          ("vendor.name", PStr "")].

Definition orphan_filament : gmap pykey (pyval Dec) :=
  fields [("name", PStr "PLA"); ("density", PStr "1.24"); ("diameter", PStr "1.75");
          ("vendor.name", PStr "Nobody")].

(** A filament whose [vendor.name] is the number 5: it is not a string,
    and the vendor lookup is made with it. *)
Definition numbered_vendor : pyval Dec :=
  record [("density", PStr "1.24"); ("diameter", PStr "1.75");
          ("vendor.name", PInt 5)].

(** *** The inputs of the integration tests *)

Definition vendors_csv : string :=
  "name,comment,empty_spool_weight" +:+ Csv.LF
  +:+ "TestVendor1,Test comment,145.5" +:+ Csv.LF
  +:+ "TestVendor2,,150.0" +:+ Csv.LF.

Definition filaments_csv : string :=
  "name,vendor.name,material,density,diameter,weight,price" +:+ Csv.LF
  +:+ "TestFilament1,Acme,PLA,1.24,1.75,1000.0,20.5" +:+ Csv.LF
  +:+ "TestFilament2,Acme,ABS,1.04,1.75,1000.0,25.0" +:+ Csv.LF.

Definition filaments_missing_required_csv : string :=
  "name,vendor.name,material,diameter" +:+ Csv.LF
  +:+ "TestFilament1,TestVendor,PLA,1.75" +:+ Csv.LF.

(** The vendor identifiers of the filament creation calls in a log. *)
Definition vendor_ids (log : list (call Dec)) : list (option Z) :=
  omap (λ c, match c with
             | CallFilamentCreate a => Some (f_vendor_id a)
             | _ => None
             end) log.

(** *** Inputs of the further examples *)

(** [content.decode("utf-8")] on the bytes of the ASCII range, which are
    their own text. *)
Definition decode_ascii (content : string) : exc string :=
  if forallb (λ c, nat_of_ascii c <? 128) (list_ascii_of_string content)
  then Return content
  else Raise (ValueError "'utf-8' codec can't decode bytes").

(** The vendors of the integration test, uploaded under a name that is
    neither [.csv] nor [.json]. *)
Definition text_upload : UploadFile :=
  {| UploadFile_filename := Some "vendors.txt";
     UploadFile_read := Return vendors_csv |}.

(** JSON text: a string literal, an object given by its members, and an
    array laid out with one element on each line. *)
Definition quoted (s : string) : string :=
  String "034" (s +:+ String "034" EmptyString).

Definition json_object (members : list (string * string)) : string :=
  "{" +:+ String.concat ", " ((λ '(k, v), quoted k +:+ ": " +:+ v) <$> members)
      +:+ "}".

Definition json_array (elements : list string) : string :=
  "[" +:+ Csv.LF
      +:+ String.concat ("," +:+ Csv.LF) ((λ e, "    " +:+ e) <$> elements)
      +:+ Csv.LF +:+ "]".

Definition vendors_json : string :=
  json_array
    [json_object [("name", quoted "JsonVendor1"); ("comment", quoted "Test");
                  ("empty_spool_weight", "145.5")];
     json_object [("name", quoted "JsonVendor2"); ("comment", "null");
                  ("empty_spool_weight", "150.0")]].

Definition filaments_json : string :=
  json_array
    [json_object [("name", quoted "JsonFilament1"); ("vendor.name", quoted "Acme");
                  ("material", quoted "PLA"); ("density", "1.24");
                  ("diameter", "1.75"); ("weight", "1000.0"); ("price", "20.5")];
     json_object [("name", quoted "JsonFilament2"); ("vendor.name", quoted "Acme");
                  ("material", quoted "ABS"); ("density", "1.04");
                  ("diameter", "1.75"); ("weight", "1000.0"); ("price", "25.0")]].

(** The file of a request: its name and its bytes. *)
Definition upload (filename content : string) : UploadFile :=
  {| UploadFile_filename := Some filename; UploadFile_read := Return content |}.

(** A vendor whose name has white space around it. *)
Definition padded_vendor : pyval Dec :=
  record [("name", PStr "  Acme  "); ("comment", PStr "since 1949")].

(** A spool of the PLA of Acme. *)
Definition acme_spool : gmap pykey (pyval Dec) :=
  fields [("filament.name", PStr "PLA"); ("filament.vendor.name", PStr "Acme");
          ("price", PStr "19.90")].

End Example.

(** ** Entity inputs

    The typed, validated projection of a record into the arguments of the
    creation call: what the [try] block of each orchestrator computes before
    it first touches the store. The lemmas [vendor_row_input],
    [filament_row_input] and [spool_row_input] below show that the
    orchestrators do compute them. *)

Section EntityInputs.
Context {F : Type} `{!PyBuiltins F} `{!Store F}.

(** Lines 98 to 106 of [import_vendors]. *)
Definition vendor_input (item_data : pyval F) : exc (VendorInput F) :=
  name ← (v ← dict_get_default item_data "name" (PStr ""); str_strip v);
  comment ← dict_get item_data "comment";
  empty_spool_weight ← get_parsed item_data "empty_spool_weight" "float";
  external_id ← dict_get item_data "external_id";
  extra ← _extract_extra_fields item_data;
  if String.eqb name "" then Raise (ImportDataError "'name' is required")
  else
    Return {| v_name := name;
              v_comment := comment;
              v_empty_spool_weight := empty_spool_weight;
              v_external_id := external_id;
              v_extra := extra_or_none extra |}.

(** The extraction of [import_filaments], lines 137 to 152: every field
    but the vendor identifier, which the lookup supplies later. *)
Definition filament_extract (item_data : pyval F)
    : exc (option Z → FilamentInput F) :=
  name ← get_stripped item_data "name";
  material ← get_stripped item_data "material";
  price ← get_parsed item_data "price" "float";
  density ← get_parsed item_data "density" "float";
  diameter ← get_parsed item_data "diameter" "float";
  weight ← get_parsed item_data "weight" "float";
  spool_weight ← get_parsed item_data "spool_weight" "float";
  article_number ← get_stripped item_data "article_number";
  comment ← dict_get item_data "comment";
  settings_extruder_temp ← get_parsed item_data "settings_extruder_temp" "int";
  settings_bed_temp ← get_parsed item_data "settings_bed_temp" "int";
  color_hex ← dict_get item_data "color_hex";
  multi_color_hexes ← dict_get item_data "multi_color_hexes";
  multi_color_direction ← dict_get item_data "multi_color_direction";
  external_id ← dict_get item_data "external_id";
  extra ← _extract_extra_fields item_data;
  Return (λ vendor_id,
    {| f_name := name;
       f_vendor_id := vendor_id;
       f_material := material;
       f_price := price;
       f_density := density;
       f_diameter := diameter;
       f_weight := weight;
       f_spool_weight := spool_weight;
       f_article_number := article_number;
       f_comment := comment;
       f_settings_extruder_temp := settings_extruder_temp;
       f_settings_bed_temp := settings_bed_temp;
       f_color_hex := color_hex;
       f_multi_color_hexes := multi_color_hexes;
       f_multi_color_direction := multi_color_direction;
       f_external_id := external_id;
       f_extra := extra_or_none extra |}).

(** The required-field checks of [import_filaments], lines 155 to 158. *)
Definition filament_required (a : FilamentInput F) : exc unit :=
  if is_None (f_density a) then Raise (ImportDataError "'density' is required")
  else if is_None (f_diameter a) then Raise (ImportDataError "'diameter' is required")
  else Return ().

(** Extraction, then the checks. *)
Definition filament_input (item_data : pyval F)
    : exc (option Z → FilamentInput F) :=
  mk ← filament_extract item_data;
  filament_required (mk None);;
  Return mk.

(** The extraction of [import_spools], lines 210 to 219: every field but
    the filament identifier. *)
Definition spool_input (item_data : pyval F) : exc (Z → SpoolInput F) :=
  price ← get_parsed item_data "price" "float";
  initial_weight ← get_parsed item_data "initial_weight" "float";
  spool_weight ← get_parsed item_data "spool_weight" "float";
  used_weight ← get_parsed item_data "used_weight" "float";
  remaining_weight ← get_parsed item_data "remaining_weight" "float";
  location ← get_stripped item_data "location";
  lot_nr ← get_stripped item_data "lot_nr";
  comment ← dict_get item_data "comment";
  archived ← get_parsed item_data "archived" "bool";
  extra ← _extract_extra_fields item_data;
  Return (λ filament_id,
    {| s_filament_id := filament_id;
       s_price := price;
       s_initial_weight := initial_weight;
       s_spool_weight := spool_weight;
       s_used_weight := used_weight;
       s_remaining_weight := remaining_weight;
       s_location := location;
       s_lot_nr := lot_nr;
       s_comment := comment;
       s_archived := archived;
       s_extra := extra_or_none extra |}).

(** The calls a computation adds to the log when run from [st]. *)
Definition calls_made {A} (m : M A) (st : state) : list (call F) :=
  drop (length (calls st)) (calls (m st).2).

(** The [extra] argument of a creation call. *)
Definition call_extra (c : call F) : option (gmap string string) :=
  match c with
  | CallVendorCreate a => v_extra a
  | CallFilamentCreate a => f_extra a
  | CallSpoolCreate a => s_extra a
  | _ => None
  end.

(** [item.get(key)] on a dictionary. *)
Definition field (d : gmap pykey (pyval F)) (key : string) : pyval F :=
  default PNone (d !! Some key).

(** The state after a lookup call [c] that left the database as [d]. *)
Definition after_call (c : call F) (d : DB) (st : state) : state :=
  {| result := result st; db := d; calls := calls st ++ [c] |}.

(** The record [item] at row [i] fails with the message [msg] before any
    call on the store: one failure detail is added, the database and the
    call log stay as they were, and the loop goes on with [rest]. *)
Definition fails_before_any_call (body : pyval F → M unit) (i : nat)
    (item : pyval F) (msg : string) (rest : list (nat * pyval F))
    (st : state) : Prop :=
  import_rows body ((i, item) :: rest) st =
    import_rows body rest
      (set_result (ImportResult_add_error i item msg (result st)) st).

(** The filament reference of the spool record [d] does not resolve in
    the state [st]: there is no filament name to look up, or the lookup
    finds no filament that passes the filter on the vendor name. *)
Definition unresolved (d : gmap pykey (pyval F)) (st : state) : Prop :=
  truthy (field d "filament.name") = false
  ∨ ∃ found n d',
      filament_find (field d "filament.name") (db st) = (Return (found, n), d')
      ∧ filter_by_vendor (field d "filament.vendor.name") found = [].

End EntityInputs.

(** ** Predicates of the specification *)

Section Specification.
Context {F : Type} `{!PyBuiltins F} `{!Store F}.

(** [m] leaves the import result as it found it, whatever its outcome. *)
Definition keeps {A} (m : M A) : Prop :=
  ∀ st, result (m st).2 = result st.

(** [m] counts one creation when it returns and nothing when it raises. *)
Definition counts {A} (m : M A) : Prop :=
  ∀ st,
    match m st with
    | (Return _, st') =>
        result st' = {| created := S (created (result st));
                        failed := failed (result st);
                        errors := errors (result st) |}
    | (Raise _, st') => result st' = result st
    end.

(** The failure details, reduced to the pair of their row number and
    the record they carry. *)
Definition detail_key (e : ErrorDetail F) : nat * pyval F := (row e, data e).

(** An orchestrator run returns, and what it returns satisfies [P]. *)
Definition returns (run : exc (ImportResult F) * state)
    (P : ImportResult F → Prop) : Prop :=
  ∃ r st', run = (Return r, st') ∧ P r.

(** Total record coverage of a batch [records]. *)
Definition covered (records : list (pyval F)) (r : ImportResult F) : Prop :=
  created r + failed r = length records
  ∧ failed r = length (errors r)
  ∧ NoDup (row <$> errors r).

(** Row numbers of the failure details of a batch [records]. *)
Definition rows_faithful (records : list (pyval F)) (r : ImportResult F) : Prop :=
  (∀ e, e ∈ errors r →
        1 ≤ row e ∧ records !! (row e - 1) = Some (data e))
  ∧ (∀ i j ei ej, i ≤ j →
        errors r !! i = Some ei → errors r !! j = Some ej → row ei ≤ row ej)
  ∧ detail_key <$> errors r `sublist_of` enumerate records 1.

(** [m] only adds calls to the log, and each call it adds satisfies [P]. *)
Definition only_calls {A} (P : call F → Prop) (m : M A) : Prop :=
  ∀ st, ∃ l, calls (m st).2 = calls st ++ l ∧ Forall P l.

Definition is_array (v : pyval F) : bool :=
  match v with PList _ => true | _ => false end.

(** [_do_import] on the structured text [content] for [resource] runs
    the orchestrator [import] and answers with its result. *)
Definition runs_on (content resource : string) (import : M (ImportResult F))
    (st : state) : Prop :=
  ∃ r st',
    import st = (Return r, st')
    ∧ _do_import resource content JSON st = (Return (to_response r), st').

End Specification.

(** ** Further predicates *)

Section Behaviour.
Context {F : Type} `{!PyBuiltins F} `{!Store F}.

(** [v] is a string or [None]. *)
Definition is_text (v : pyval F) : bool :=
  match v with
  | PNone | PStr _ => true
  | _ => false
  end.

(** Every value the dictionary [d] holds under a string key is a string
    or [None]: the values of a record read from CSV, or of a JSON object
    that carries text and nulls only. *)
Definition textual (d : gmap pykey (pyval F)) : Prop :=
  ∀ k v, d !! Some k = Some v → is_text v = true.

(** The failure detail [e] with its row number moved up by [n]. *)
Definition shift_row (n : nat) (e : ErrorDetail F) : ErrorDetail F :=
  {| row := n + row e; data := data e; error := error e |}.

(** Importing [l1 ++ l2] from [st] is importing [l1] from [st] and then
    [l2] from the state this leaves: the store is left in the same state,
    the counts add up, and the failure details are those of [l1] followed
    by those of [l2] with their rows moved up by the length of [l1]. *)
Definition splits (import : list (pyval F) → M (ImportResult F))
    (l1 l2 : list (pyval F)) (st : state) : Prop :=
  ∃ r1 st1 r2 st2,
    import l1 st = (Return r1, st1)
    ∧ import l2 st1 = (Return r2, st2)
    ∧ let r := {| created := created r1 + created r2;
                  failed := failed r1 + failed r2;
                  errors := errors r1 ++ (shift_row (length l1) <$> errors r2) |} in
      import (l1 ++ l2) st = (Return r, set_result r st2).

(** [m] does not read the import result: started with another result it
    does the same, and leaves that result in place. *)
Definition framed {A} (m : M A) : Prop :=
  ∀ st r, m (set_result r st) = let '(o, st1) := m st in (o, set_result r st1).

(** [m] reads the import result only to count one creation when it
    returns. *)
Definition tallies {A} (m : M A) : Prop :=
  ∀ st r,
    m (set_result r st) =
      let '(o, st1) := m st in
      (o, set_result
            match o with
            | Return _ => {| created := S (created r); failed := failed r;
                             errors := errors r |}
            | Raise _ => r
            end st1).

(** The parser [_do_import] selects for a format. *)
Definition parse_file (file_format : FileFormat) (content : string)
    : exc (list (pyval F)) :=
  match file_format with
  | CSV => parse_csv content
  | JSON => parse_json content
  end.

(** The orchestrator [_do_import] selects for a resource, if any. *)
Definition importer (resource : string)
    : option (list (pyval F) → M (ImportResult F)) :=
  if String.eqb resource "vendors" then Some import_vendors
  else if String.eqb resource "filaments" then Some import_filaments
  else if String.eqb resource "spools" then Some import_spools
  else None.

(** Two runs of the body of a loop on one record end in the same state,
    and both return or both raise exceptions with the same message. *)
Definition same_outcome (x y : exc unit * state) : Prop :=
  x.2 = y.2
  ∧ match x.1, y.1 with
    | Return _, Return _ => True
    | Raise e, Raise e' => str_exn e = str_exn e'
    | _, _ => False
    end.

End Behaviour.

(** * Properties *)

(** ** Facts about the text helpers *)

Module PyStrFacts.
Import PyStr.

Lemma app_cons (a : ascii) (p s : string) :
  String a p +:+ s = String a (p +:+ s).
Proof. reflexivity. Qed.

Lemma startswith_app (p s : string) : startswith (p +:+ s) p = true.
Proof.
  induction p as [|a p IH]; [reflexivity|].
  rewrite app_cons. simpl. by rewrite Ascii.eqb_refl.
Qed.

Lemma drop_app (p s : string) : drop (String.length p) (p +:+ s) = s.
Proof.
  induction p as [|a p IH]; [reflexivity|].
  rewrite app_cons. simpl. apply IH.
Qed.

Lemma startswith_split (s p : string) :
  startswith s p = true → s = p +:+ drop (String.length p) s.
Proof.
  revert s. induction p as [|a p IH]; intros s H; simpl in *; [done|].
  destruct s as [|b s]; [done|].
  destruct (Ascii.eqb a b) eqn:E; [|done].
  apply Ascii.eqb_eq in E. subst b.
  rewrite app_cons. f_equal. by apply IH.
Qed.

Lemma mem_true (s : string) (l : list string) : mem s l = true ↔ s ∈ l.
Proof.
  unfold mem. rewrite existsb_exists, list_elem_of_In. split.
  - intros (x & Hx & E). apply String.eqb_eq in E. by subst.
  - intros H. exists s. split; [done|]. apply String.eqb_refl.
Qed.

End PyStrFacts.


(** ** The field coercer *)

Section CoercionProperties.
Context {F : Type} `{!PyBuiltins F}.

Lemma exc_try_value_error {A} (body : exc A) (a : A) :
  (∀ e, body = Raise e → is_ValueError e = true) →
  ∃ r, exc_try body is_ValueError (λ _, Return a) = Return r.
Proof.
  intros H. destruct body as [r|e]; simpl; [by exists r|].
  rewrite (H e eq_refl). by exists a.
Qed.

Lemma int_of_str_raises (s : string) (e : exn) :
  int_of_str (F:=F) s = Raise e → is_ValueError e = true.
Proof. unfold int_of_str. destruct (py_int s); [done|]. by intros [= <-]. Qed.

Lemma float_of_str_raises (s : string) (e : exn) :
  float_of_str (F:=F) s = Raise e → is_ValueError e = true.
Proof. unfold float_of_str. destruct (py_float s); [done|]. by intros [= <-]. Qed.

Lemma parse_value_returns (value : pyval F) (field_type : string) :
  ∃ v, _parse_value value field_type = Return v.
Proof.
  destruct value; simpl; eauto.
  repeat match goal with
         | |- context [if ?b then _ else _] => destruct b
         end; eauto using exc_try_value_error, int_of_str_raises,
                float_of_str_raises.
Qed.

Lemma parse_value_null_marker (s field_type : string) :
  PyStr.mem (PyStr.lower s) ["none"; "null"; ""] = true →
  _parse_value (F:=F) (PStr s) field_type = Return PNone.
Proof. intros H. simpl. rewrite H. by destruct (String.eqb s ""). Qed.

(** C3. [_parse_value] never raises: whatever the raw value and the
    target kind, it returns a value. [None], the empty string and every
    string that lower-cases to "none" or "null" give [None] for every
    target kind; for the kinds "int" and "float" a string the numeric
    conversion rejects gives [None]. *)
Theorem parse_value_never_raises (value : pyval F) (field_type : string) :
  (∃ v, _parse_value value field_type = Return v)
  ∧ (value = PNone ∨ value = PStr ""
     ∨ (∃ s, value = PStr s
             ∧ (PyStr.lower s = "none" ∨ PyStr.lower s = "null")) →
     _parse_value value field_type = Return PNone)
  ∧ (∀ s, value = PStr s → field_type = "int" → py_int s = None →
          _parse_value value field_type = Return PNone)
  ∧ (∀ s, value = PStr s → field_type = "float" → py_float s = None →
          _parse_value value field_type = Return PNone).
Proof.
  split; [apply parse_value_returns|]. split; [|split].
  - intros [->|[->|(s & -> & Hs)]]; [done|done|].
    apply parse_value_null_marker. by destruct Hs as [-> | ->].
  - intros s -> -> Hint. simpl.
    destruct (String.eqb s ""); [done|].
    destruct (PyStr.mem _ _); [done|].
    unfold int_of_str. by rewrite Hint.
  - intros s -> -> Hfl. simpl.
    destruct (String.eqb s ""); [done|].
    destruct (PyStr.mem _ _); [done|].
    unfold float_of_str. by rewrite Hfl.
Qed.

(** C4, as the code has it. For the target kind "bool" a string that
    lower-cases to "none", "null" or the empty string gives [None]; every
    other string gives [True] when it lower-cases to "true", "1" or
    "yes", and [False] otherwise. *)
Theorem parse_value_bool (s : string) :
  _parse_value (F:=F) (PStr s) "bool" =
    Return (if PyStr.mem (PyStr.lower s) ["none"; "null"; ""] then PNone
            else PBool (PyStr.mem (PyStr.lower s) ["true"; "1"; "yes"])).
Proof.
  simpl. destruct (String.eqb s "") eqn:E.
  - apply String.eqb_eq in E. by subst.
  - by destruct (PyStr.mem _ _).
Qed.

End CoercionProperties.

(** ** How the orchestrators treat the [ImportResult] *)

Section ResultAccounting.
Context {F : Type} `{!PyBuiltins F} `{!Store F}.

Lemma keeps_ret {A} (a : A) : keeps (mret a).
Proof. done. Qed.

Lemma keeps_lift {A} (c : exc A) : keeps (lift c).
Proof. done. Qed.

Lemma keeps_raise {A} (e : exn) : keeps (raise (A:=A) e).
Proof. done. Qed.

Lemma keeps_raise_if (b : bool) (e : exn) : keeps (raise_if b e).
Proof. by destruct b. Qed.

Lemma keeps_await {A} (c : call F) (op : DB → exc A * DB) : keeps (await c op).
Proof. intros st. unfold await. by destruct (op (db st)). Qed.

Lemma keeps_bind {A B} (m : M A) (f : A → M B) :
  keeps m → (∀ a, keeps (f a)) → keeps (m ≫= f).
Proof.
  intros Hm Hf st. specialize (Hm st). unfold mbind, M_bind.
  destruct (m st) as [[a|e] st']; simpl in *; [|done].
  by rewrite Hf.
Qed.

Lemma counts_raise {A} (e : exn) : counts (raise (A:=A) e).
Proof. done. Qed.

Lemma counts_bind {A B} (m : M A) (f : A → M B) :
  keeps m → (∀ a, counts (f a)) → counts (m ≫= f).
Proof.
  intros Hm Hf st. specialize (Hm st). unfold mbind, M_bind.
  destruct (m st) as [[a|e] st']; simpl in *; [|done].
  specialize (Hf a st'). destruct (f a st') as [[b|e] st'']; by rewrite Hf, Hm.
Qed.

Lemma counts_created : counts (incr_created;; logger_info).
Proof. done. Qed.

Lemma keeps_resolve_vendor (vendor_name : pyval F) :
  keeps (resolve_vendor vendor_name).
Proof.
  unfold resolve_vendor. destruct (truthy vendor_name); [|done].
  apply keeps_bind; [apply keeps_await|].
  intros [[|v l] n]; done.
Qed.

Lemma keeps_resolve_filament (filament_name vendor_name : pyval F) :
  keeps (resolve_filament filament_name vendor_name).
Proof.
  unfold resolve_filament. destruct (truthy filament_name); [|done].
  apply keeps_bind; [apply keeps_await|].
  intros [l n]. by destruct (filter_by_vendor vendor_name l).
Qed.

Create HintDb effects discriminated.
#[local] Hint Resolve keeps_ret keeps_lift keeps_raise keeps_raise_if
  keeps_await keeps_resolve_vendor keeps_resolve_filament
  counts_raise counts_created : effects.

Ltac account :=
  repeat first
    [ solve [auto with effects]
    | apply counts_bind; [solve [auto with effects] | intros ?] ].

Lemma counts_vendor_row (item_data : pyval F) : counts (vendor_row item_data).
Proof. unfold vendor_row, await_vendor_create. account. Qed.

Lemma counts_filament_row (item_data : pyval F) : counts (filament_row item_data).
Proof. unfold filament_row, await_filament_create. account. Qed.

Lemma counts_spool_row (item_data : pyval F) : counts (spool_row item_data).
Proof.
  unfold spool_row, await_spool_create. account.
  match goal with |- counts (match ?o with _ => _ end) => destruct o end; account.
Qed.

(** One turn of the loop: the body runs; when it raises, the record is
    added to the failure details; then the loop goes on with the rest. *)
Lemma import_rows_cons (body : pyval F → M unit) (i : nat) (item : pyval F)
    (rows : list (nat * pyval F)) (st : state) :
  import_rows body ((i, item) :: rows) st =
    match body item st with
    | (Return _, st1) => import_rows body rows st1
    | (Raise e, st1) =>
        import_rows body rows
          (set_result (ImportResult_add_error i item (str_exn e) (result st1)) st1)
    end.
Proof.
  unfold import_rows. simpl for_each.
  unfold mbind at 1, M_bind at 1, try_except.
  by destruct (body item st) as [[[]|e] st1].
Qed.

(** The loop: every record either counts as created or adds one failure
    detail carrying its own row number and itself, in input order. *)
Lemma import_rows_spec (body : pyval F → M unit) (rows : list (nat * pyval F))
    (st : state) :
  (∀ item, counts (body item)) →
  ∃ st' errs,
    import_rows body rows st = (Return (), st')
    ∧ errors (result st') = errors (result st) ++ errs
    ∧ failed (result st') = failed (result st) + length errs
    ∧ created (result st') + length errs = created (result st) + length rows
    ∧ detail_key <$> errs `sublist_of` rows.
Proof.
  intros Hbody. revert st.
  induction rows as [|[i item] rows IH]; intros st.
  - exists st, []. simpl. rewrite app_nil_r. repeat split; [lia..|constructor].
  - rewrite import_rows_cons. specialize (Hbody item st).
    destruct (body item st) as [[[]|e] st1].
    + destruct (IH st1) as (st' & errs & -> & He & Hf & Hc & Hs).
      exists st', errs. rewrite He, Hf, Hbody in *. simpl in *.
      repeat split; [lia|by apply sublist_cons].
    + destruct (IH (set_result
                      (ImportResult_add_error i item (str_exn e) (result st1))
                      st1))
        as (st' & errs & -> & He & Hf & Hc & Hs).
      exists st', ({| row := i; data := item; error := str_exn e |} :: errs).
      simpl in *. rewrite He, Hf, Hbody in *.
      rewrite <- app_assoc. simpl in *.
      repeat split; [lia..|by apply sublist_skip].
Qed.

(** Facts about [enumerate]. *)
Lemma enumerate_length {A} (l : list A) (k : nat) :
  length (enumerate l k) = length l.
Proof. revert k. induction l; intros k; simpl; [done|]. by rewrite IHl. Qed.

Lemma sublist_enumerate {A} (l : list A) (k : nat) (s : list (nat * A)) :
  s `sublist_of` enumerate l k →
  Forall (λ '(i, x), k ≤ i ∧ l !! (i - k) = Some x) s
  ∧ StronglySorted lt s.*1.
Proof.
  revert k s. induction l as [|y l IH]; intros k s Hs; simpl in Hs.
  - apply sublist_nil_r in Hs as ->. split; constructor.
  - assert (Hshift : ∀ t, t `sublist_of` enumerate l (S k) →
             Forall (λ '(i, x), S k ≤ i ∧ (y :: l) !! (i - k) = Some x) t
             ∧ StronglySorted lt t.*1).
    { intros t Ht. destruct (IH _ _ Ht) as [Hf Hsort]. split; [|done].
      eapply Forall_impl; [exact Hf|]. intros [i x] [Hle Hl]. split; [done|].
      replace (i - k) with (S (i - S k)) by lia. done. }
    inversion Hs as [|x s1 l2 Hs'|x s1 l2 Hs']; subst.
    + destruct (Hshift _ Hs') as [Hf Hsort]. split.
      * constructor.
        -- split; [done|]. by rewrite Nat.sub_diag.
        -- eapply Forall_impl; [exact Hf|]. intros [i x] [? ?]. split; [lia|done].
      * simpl. constructor; [done|].
        apply Forall_fmap. eapply Forall_impl; [exact Hf|].
        intros [i x] [? ?]. simpl. lia.
    + destruct (Hshift _ Hs') as [Hf Hsort]. split; [|done].
      eapply Forall_impl; [exact Hf|]. intros [i x] [? ?]. split; [lia|done].
Qed.

(** What an orchestrator built on [import_rows] returns. *)
Lemma import_spec (body : pyval F → M unit) (data : list (pyval F)) (st : state) :
  (∀ item, counts (body item)) →
  ∃ r st',
    (new_result;; import_rows body (enumerate data 1);; get_result) st
      = (Return r, st')
    ∧ created r + failed r = length data
    ∧ failed r = length (errors r)
    ∧ detail_key <$> errors r `sublist_of` enumerate data 1.
Proof.
  intros Hbody.
  destruct (import_rows_spec body (enumerate data 1)
              (set_result ImportResult_init st) Hbody)
    as (st' & errs & Hrun & He & Hf & Hc & Hs).
  exists (result st'), st'.
  unfold mbind, M_bind, new_result, get_result. rewrite Hrun.
  simpl in *. rewrite enumerate_length in Hc. rewrite He, Hf.
  by repeat split.
Qed.

Lemma strictly_sorted_lookup (l : list nat) (i j x y : nat) :
  StronglySorted lt l → i < j → l !! i = Some x → l !! j = Some y → x < y.
Proof.
  intros Hs. revert i j x y.
  induction Hs as [|a l Hs IH Ha]; intros i j x y Hij Hi Hj.
  - by rewrite lookup_nil in Hi.
  - destruct j as [|j]; [lia|]. simpl in Hj. destruct i as [|i].
    + simpl in Hi. injection Hi as <-.
      rewrite Forall_forall in Ha. apply Ha.
      by eapply list_elem_of_lookup_2.
    + simpl in Hi. apply (IH i j); [lia|done..].
Qed.

Lemma strictly_sorted_NoDup (l : list nat) : StronglySorted lt l → NoDup l.
Proof.
  induction 1 as [|a l Hs IH Ha]; constructor; [|done].
  intros Hin. rewrite Forall_forall in Ha.
  apply Ha in Hin. lia.
Qed.

Lemma detail_rows (errs : list (ErrorDetail F)) :
  (detail_key <$> errs).*1 = row <$> errs.
Proof. rewrite <- list_fmap_compose. done. Qed.

Lemma import_covered (body : pyval F → M unit) (records : list (pyval F))
    (st : state) :
  (∀ item, counts (body item)) →
  returns ((new_result;; import_rows body (enumerate records 1);; get_result) st)
          (covered records).
Proof.
  intros Hbody.
  destruct (import_spec body records st Hbody) as (r & st' & Hrun & Hc & Hf & Hs).
  exists r, st'. split; [done|]. split; [done|]. split; [done|].
  apply sublist_enumerate in Hs as [_ Hs]. rewrite detail_rows in Hs.
  by apply strictly_sorted_NoDup.
Qed.

Lemma import_rows_faithful (body : pyval F → M unit) (records : list (pyval F))
    (st : state) :
  (∀ item, counts (body item)) →
  returns ((new_result;; import_rows body (enumerate records 1);; get_result) st)
          (rows_faithful records).
Proof.
  intros Hbody.
  destruct (import_spec body records st Hbody) as (r & st' & Hrun & Hc & Hf & Hs).
  exists r, st'. split; [done|].
  destruct (sublist_enumerate _ _ _ Hs) as [Hall Hsort].
  rewrite detail_rows in Hsort. split; [|split; [|done]].
  - intros e He. rewrite Forall_forall in Hall.
    apply (Hall (detail_key e)).
    apply list_elem_of_fmap. by exists e.
  - intros i j ei ej Hij Hi Hj.
    destruct (decide (i = j)) as [->|Hne].
    + rewrite Hi in Hj. injection Hj as ->. done.
    + apply Nat.lt_le_incl.
      apply (strictly_sorted_lookup (row <$> errors r) i j); [done|lia|..];
        rewrite list_lookup_fmap; [by rewrite Hi|by rewrite Hj].
Qed.

(** C1. Each of the three orchestrators returns (it never raises), and
    for every list of input records the result has
    [created + failed] equal to the number of records and [failed] equal
    to the number of failure details; no two details carry the same row
    number, so no record is counted twice. *)
Theorem import_covers_every_record (records : list (pyval F)) (st : state) :
  returns (import_vendors records st) (covered records)
  ∧ returns (import_filaments records st) (covered records)
  ∧ returns (import_spools records st) (covered records).
Proof.
  repeat split; apply import_covered;
    auto using counts_vendor_row, counts_filament_row, counts_spool_row.
Qed.

(** C2. In the result of each orchestrator every failure detail carries
    the 1-based position of the record it carries, and the row numbers
    do not decrease along the list of details; the details, as pairs of
    row and record, are a subsequence of the numbered input. *)
Theorem import_rows_are_positions (records : list (pyval F)) (st : state) :
  returns (import_vendors records st) (rows_faithful records)
  ∧ returns (import_filaments records st) (rows_faithful records)
  ∧ returns (import_spools records st) (rows_faithful records).
Proof.
  repeat split; apply import_rows_faithful;
    auto using counts_vendor_row, counts_filament_row, counts_spool_row.
Qed.

End ResultAccounting.

(** ** The orchestrators compute the entity inputs *)

Section RowShapes.
Context {F : Type} `{!PyBuiltins F} `{!Store F}.

Lemma bind_lift {A B} (c : exc A) (f : A → M B) (st : state) :
  (lift c ≫= f) st =
    match c with
    | Return a => f a st
    | Raise e => (Raise e, st)
    end.
Proof. unfold mbind, M_bind, lift. by destruct c. Qed.

Lemma bind_raise_if {B} (b : bool) (e : exn) (f : unit → M B) (st : state) :
  (raise_if b e ≫= f) st = if b then (Raise e, st) else f () st.
Proof. by destruct b. Qed.

Ltac head_scrutinee t :=
  lazymatch t with
  | match ?c with Return _ => _ | Raise _ => _ end => head_scrutinee c
  | _ => t
  end.

Ltac run_binds :=
  unfold mbind, M_bind, exc_bind, lift, mret, M_ret, exc_ret, raise_if, raise;
  cbn beta iota.

(** Case analysis on the computations of a chain of binds, first to
    last; the cases where one of them raises close by themselves. *)
Ltac exc_cases :=
  run_binds;
  repeat lazymatch goal with
         | |- match ?c with Return _ => _ | Raise _ => _ end = _ =>
             let h := head_scrutinee c in
             destruct h; cbn beta iota; [|reflexivity]
         end.

Lemma vendor_row_input (item_data : pyval F) (st : state) :
  vendor_row item_data st =
    match vendor_input item_data with
    | Return a => (await_vendor_create a;; incr_created;; logger_info) st
    | Raise e => (Raise e, st)
    end.
Proof.
  unfold vendor_row, vendor_input. exc_cases.
  by destruct (String.eqb _ _).
Qed.

Lemma filament_row_input (item_data : pyval F) (st : state) :
  filament_row item_data st =
    match filament_input item_data with
    | Return mk =>
        (vendor_name ← lift (dict_get item_data "vendor.name");
         vendor_id ← resolve_vendor vendor_name;
         await_filament_create (mk vendor_id);;
         incr_created;;
         logger_info) st
    | Raise e => (Raise e, st)
    end.
Proof.
  unfold filament_row, filament_input, filament_extract, filament_required.
  exc_cases. simpl.
  destruct (is_None _); [reflexivity|].
  destruct (is_None _); reflexivity.
Qed.

Lemma spool_row_input (item_data : pyval F) (st : state) :
  spool_row item_data st =
    match spool_input item_data with
    | Return mk =>
        (filament_name ← lift (dict_get item_data "filament.name");
         vendor_name ← lift (dict_get item_data "filament.vendor.name");
         filament_id ← resolve_filament filament_name vendor_name;
         match filament_id with
         | None =>
             raise (ImportDataError
                      ("Could not find filament: " +:+ py_str filament_name))
         | Some filament_id =>
             await_spool_create (mk filament_id);;
             incr_created;;
             logger_info
         end) st
    | Raise e => (Raise e, st)
    end.
Proof. unfold spool_row, spool_input. exc_cases. reflexivity. Qed.

(** *** Which calls a computation makes *)

Lemma only_calls_made {A} (P : call F → Prop) (m : M A) (st : state) :
  only_calls P m → Forall P (calls_made m st).
Proof.
  intros H. destruct (H st) as (l & Hl & HP). unfold calls_made.
  by rewrite Hl, drop_app_length.
Qed.

Lemma only_calls_pure {A} (P : call F → Prop) (m : M A) :
  (∀ st, calls (m st).2 = calls st) → only_calls P m.
Proof. intros H st. exists []. by rewrite H, app_nil_r. Qed.

Lemma only_calls_await {A} (P : call F → Prop) (c : call F)
    (op : DB → exc A * DB) :
  P c → only_calls P (await c op).
Proof.
  intros Hc st. exists [c]. unfold await.
  destruct (op (db st)). split; [done|]. by constructor.
Qed.

Lemma only_calls_bind {A B} (P : call F → Prop) (m : M A) (f : A → M B) :
  only_calls P m → (∀ a, only_calls P (f a)) → only_calls P (m ≫= f).
Proof.
  intros Hm Hf st. destruct (Hm st) as (l & Hl & HP).
  unfold mbind, M_bind. destruct (m st) as [[a|e] st']; simpl in *.
  - destruct (Hf a st') as (l' & Hl' & HP'). exists (l ++ l').
    rewrite Hl', Hl, app_assoc. split; [done|]. by apply Forall_app.
  - by exists l.
Qed.

Lemma only_calls_case {A} (P : call F → Prop) (c : exc A) (f : A → M unit) :
  (∀ a, c = Return a → only_calls P (f a)) →
  only_calls P (λ st, match c with
                      | Return a => f a st
                      | Raise e => (Raise e, st)
                      end).
Proof.
  intros H. destruct c as [a|e]; [by apply H|].
  by apply only_calls_pure.
Qed.

Lemma only_calls_ext {A} (P : call F → Prop) (m m' : M A) :
  (∀ st, m st = m' st) → only_calls P m' → only_calls P m.
Proof. intros E H st. rewrite E. apply H. Qed.

Lemma only_calls_resolve_vendor (P : call F → Prop) (vendor_name : pyval F) :
  (truthy vendor_name = true → P (CallVendorFind vendor_name)) →
  only_calls P (resolve_vendor vendor_name).
Proof.
  intros HP. unfold resolve_vendor. destruct (truthy vendor_name).
  - apply only_calls_bind; [by apply only_calls_await, HP|].
    intros [[|v l] n]; by apply only_calls_pure.
  - by apply only_calls_pure.
Qed.

Lemma only_calls_resolve_filament (P : call F → Prop)
    (filament_name vendor_name : pyval F) :
  (truthy filament_name = true → P (CallFilamentFind filament_name)) →
  only_calls P (resolve_filament filament_name vendor_name).
Proof.
  intros HP. unfold resolve_filament. destruct (truthy filament_name).
  - apply only_calls_bind; [by apply only_calls_await, HP|].
    intros [l n]. destruct (filter_by_vendor vendor_name l);
      by apply only_calls_pure.
  - by apply only_calls_pure.
Qed.

Lemma only_calls_created (P : call F → Prop) :
  only_calls P (incr_created;; logger_info).
Proof. by apply only_calls_pure. Qed.

(** The calls of the three [try] blocks, given what their creation call
    must satisfy. *)
Lemma only_calls_vendor_row (P : call F → Prop) (item_data : pyval F) :
  (∀ a, vendor_input item_data = Return a → P (CallVendorCreate a)) →
  only_calls P (vendor_row item_data).
Proof.
  intros H. eapply only_calls_ext; [apply vendor_row_input|].
  apply only_calls_case. intros a Ha.
  apply only_calls_bind; [apply only_calls_await; auto|].
  intros _. apply only_calls_created.
Qed.

Lemma only_calls_filament_row (P : call F → Prop) (item_data : pyval F) :
  (∀ n, P (CallVendorFind n)) →
  (∀ mk vendor_id, filament_input item_data = Return mk →
                   P (CallFilamentCreate (mk vendor_id))) →
  only_calls P (filament_row item_data).
Proof.
  intros Hfind H. eapply only_calls_ext; [apply filament_row_input|].
  apply only_calls_case. intros mk Hmk.
  apply only_calls_bind; [by apply only_calls_pure|]. intros vendor_name.
  apply only_calls_bind; [by apply only_calls_resolve_vendor|].
  intros vendor_id.
  apply only_calls_bind; [apply only_calls_await; auto|].
  intros _. apply only_calls_created.
Qed.

Lemma only_calls_spool_row (P : call F → Prop) (item_data : pyval F) :
  (∀ n, P (CallFilamentFind n)) →
  (∀ mk filament_id, spool_input item_data = Return mk →
                     P (CallSpoolCreate (mk filament_id))) →
  only_calls P (spool_row item_data).
Proof.
  intros Hfind H. eapply only_calls_ext; [apply spool_row_input|].
  apply only_calls_case. intros mk Hmk.
  apply only_calls_bind; [by apply only_calls_pure|]. intros filament_name.
  apply only_calls_bind; [by apply only_calls_pure|]. intros vendor_name.
  apply only_calls_bind; [by apply only_calls_resolve_filament|].
  intros [filament_id|]; [|by apply only_calls_pure].
  apply only_calls_bind; [apply only_calls_await; auto|].
  intros _. apply only_calls_created.
Qed.

(** ** The extra-attribute extractor *)

Lemma app_inj_r (p s1 s2 : string) : p +:+ s1 = p +:+ s2 → s1 = s2.
Proof.
  induction p as [|a p IH]; [done|].
  rewrite !PyStrFacts.app_cons. intros [= H]. by apply IH.
Qed.

Lemma extract_fold (d : gmap pykey (pyval F)) :
  d !! None = None →
  ∃ extra,
    map_fold extra_step (Return ∅) d = Return extra
    ∧ ∀ k, extra !! k = str_or_empty <$> d !! Some ("extra." +:+ k).
Proof.
  apply (map_fold_weak_ind (λ r m,
    m !! None = None →
    ∃ extra, r = Return extra
             ∧ ∀ k, extra !! k = str_or_empty <$> m !! Some ("extra." +:+ k))).
  - intros _. exists ∅. split; [done|]. intros k. by rewrite !lookup_empty.
  - intros key value m r Hfresh IH Hnone.
    destruct key as [key|]; [|by rewrite lookup_insert_eq in Hnone].
    rewrite lookup_insert_ne in Hnone by done.
    destruct (IH Hnone) as (extra & -> & Hextra).
    unfold extra_step. cbn [mbind exc_bind].
    destruct (PyStr.startswith key "extra.") eqn:Hpre.
    + eexists. split; [reflexivity|]. intros k.
      apply PyStrFacts.startswith_split in Hpre. simpl String.length in Hpre.
      destruct (decide (k = PyStr.drop 6 key)) as [->|Hne].
      * rewrite lookup_insert_eq, <- Hpre. by rewrite lookup_insert_eq.
      * rewrite !lookup_insert_ne; [apply Hextra| |congruence].
        intros [= E]. apply Hne. rewrite Hpre in E.
        symmetry. by apply app_inj_r in E.
    + exists extra. split; [reflexivity|]. intros k.
      rewrite lookup_insert_ne; [apply Hextra|].
      intros [= ->]. by rewrite PyStrFacts.startswith_app in Hpre.
Qed.

(** Inversion of a chain of binds that is known to return. *)
Ltac exc_inv :=
  unfold mbind, exc_bind; cbn beta iota;
  repeat lazymatch goal with
         | |- match ?c with Return _ => _ | Raise _ => _ end = _ → _ =>
             let h := head_scrutinee c in
             destruct h; cbn beta iota; [|done]
         end.

Lemma extra_or_none_None (extra : gmap string string) :
  extra_or_none extra = None ↔ extra = ∅.
Proof. unfold extra_or_none. case_bool_decide; naive_solver. Qed.





(** ** Resolution of references *)

Lemma resolve_vendor_run (vendor_name : pyval F) (st : state) :
  resolve_vendor vendor_name st =
    if truthy vendor_name then
      let '(r, d') := vendor_find vendor_name (db st) in
      let st' := after_call (CallVendorFind vendor_name) d' st in
      match r with
      | Return (found, _) => (Return (Vendor_id <$> head found), st')
      | Raise e => (Raise e, st')
      end
    else (Return None, st).
Proof.
  unfold resolve_vendor. destruct (truthy vendor_name); [|done].
  unfold mbind, M_bind, await_vendor_find, await, after_call.
  destruct (vendor_find vendor_name (db st)) as [[[[|v l] n]|e] d']; done.
Qed.

Lemma resolve_filament_run (filament_name vendor_name : pyval F) (st : state) :
  resolve_filament filament_name vendor_name st =
    if truthy filament_name then
      let '(r, d') := filament_find filament_name (db st) in
      let st' := after_call (CallFilamentFind filament_name) d' st in
      match r with
      | Return (found, _) =>
          (Return (Filament_id <$> head (filter_by_vendor vendor_name found)), st')
      | Raise e => (Raise e, st')
      end
    else (Return None, st).
Proof.
  unfold resolve_filament. destruct (truthy filament_name); [|done].
  unfold mbind, M_bind, await_filament_find, await, after_call.
  destruct (filament_find filament_name (db st)) as [[[l n]|e] d']; [|done].
  by destruct (filter_by_vendor vendor_name l).
Qed.

(** A creation call that succeeds counts the record as created. *)
Lemma create_run {A} (c : call F) (op : DB → exc A * DB) (st : state) :
  (await c op;; incr_created;; logger_info) st =
    let '(r, d') := op (db st) in
    match r with
    | Return _ =>
        (Return (),
         {| result := {| created := S (created (result st));
                         failed := failed (result st);
                         errors := errors (result st) |};
            db := d'; calls := calls st ++ [c] |})
    | Raise e => (Raise e, after_call c d' st)
    end.
Proof.
  unfold mbind, M_bind, await, after_call.
  by destruct (op (db st)) as [[a|e] d'].
Qed.

(** ** Spools whose filament does not resolve *)

(** C8, as the code has it. A spool record whose filament reference
    does not resolve fails with exactly one failure detail, after which
    the loop goes on with the remaining records; no creation call is made
    for it and the lookup yields no filament identifier. When the
    extraction of the record's fields raised nothing, the message of the
    detail is "Could not find filament: " followed by the value of
    [filament.name]. *)
Theorem unresolved_filament_fails (d : gmap pykey (pyval F)) (st : state)
    (i : nat) (rest : list (nat * pyval F)) :
  unresolved d st →
  ∃ msg st1,
    import_rows spool_row ((i, PDict d) :: rest) st
      = import_rows spool_row rest st1
    ∧ result st1 = ImportResult_add_error i (PDict d) msg (result st)
    ∧ (∃ l, calls st1 = calls st ++ l ∧ Forall (λ c, is_create c = false) l)
    ∧ (resolve_filament (field d "filament.name")
                        (field d "filament.vendor.name") st).1 = Return None
    ∧ (∀ mk, spool_input (PDict d) = Return mk →
             msg = "Could not find filament: "
                     +:+ py_str (field d "filament.name")).
Proof.
  intros Hun.
  assert (Hres : ∃ st',
    resolve_filament (field d "filament.name")
                     (field d "filament.vendor.name") st = (Return None, st')
    ∧ result st' = result st
    ∧ ∃ l, calls st' = calls st ++ l ∧ Forall (λ c, is_create c = false) l).
  { rewrite resolve_filament_run.
    destruct (truthy (field d "filament.name")) eqn:Ht.
    - destruct Hun as [Hun|(found & n & d' & Hfind & Hnone)]; [congruence|].
      rewrite Hfind, Hnone. cbn.
      eexists. split; [reflexivity|]. split; [reflexivity|].
      exists [CallFilamentFind (field d "filament.name")].
      split; [reflexivity|]. by constructor.
    - exists st. split; [done|]. split; [done|].
      exists []. by rewrite app_nil_r. }
  destruct Hres as (st' & Hres & Hresult & Hcalls).
  rewrite import_rows_cons, spool_row_input.
  destruct (spool_input (PDict d)) as [mk|e] eqn:Hin.
  - unfold mbind at 1, M_bind at 1. unfold lift at 1. cbn beta iota.
    unfold mbind at 1, M_bind at 1. unfold lift at 1. cbn beta iota.
    unfold mbind at 1, M_bind at 1.
    change (dict_get (PDict d) "filament.name") with
      (Return (field d "filament.name")).
    change (dict_get (PDict d) "filament.vendor.name") with
      (Return (field d "filament.vendor.name")).
    cbn beta iota. rewrite Hres. cbn beta iota. unfold raise.
    eexists _, _. split; [reflexivity|]. simpl. rewrite Hresult.
    split; [done|]. split; [done|]. split; [done|]. by intros mk' _.
  - eexists _, _. split; [reflexivity|]. simpl.
    split; [done|]. split; [by exists []; rewrite app_nil_r|].
    split; [by rewrite Hres|]. by intros mk' [=].
Qed.

(** ** Required fields *)

Lemma fails_when_input_raises (body : pyval F → M unit) (i : nat)
    (item : pyval F) (e : exn) (rest : list (nat * pyval F)) (st : state) :
  body item st = (Raise e, st) →
  fails_before_any_call body i item (str_exn e) rest st.
Proof.
  intros H. unfold fails_before_any_call. by rewrite import_rows_cons, H.
Qed.

(** Inversion of a chain of binds, keeping what each step returned. *)
Ltac exc_inv_eq :=
  unfold mbind, exc_bind; cbn beta iota;
  repeat lazymatch goal with
         | |- match ?c with Return _ => _ | Raise _ => _ end = _ → _ =>
             let h := head_scrutinee c in
             destruct h eqn:?; cbn beta iota; [|done]
         end.

Lemma filament_extract_required (item : pyval F)
    (mk : option Z → FilamentInput F) (vendor_id : option Z) :
  filament_extract item = Return mk →
  get_parsed item "density" "float" = Return (f_density (mk vendor_id))
  ∧ get_parsed item "diameter" "float" = Return (f_diameter (mk vendor_id)).
Proof.
  unfold filament_extract.
  generalize (get_parsed item "density" "float") (get_parsed item "diameter" "float").
  intros density diameter. exc_inv_eq. intros [= <-]. by split.
Qed.

Lemma filament_input_inv (item : pyval F) (mk : option Z → FilamentInput F) :
  filament_input item = Return mk →
  filament_extract item = Return mk
  ∧ is_None (f_density (mk None)) = false
  ∧ is_None (f_diameter (mk None)) = false.
Proof.
  unfold filament_input, filament_required.
  destruct (filament_extract item) as [mk'|e]; [|done].
  cbn [mbind exc_bind].
  destruct (is_None (f_density (mk' None))) eqn:Hden; [done|].
  destruct (is_None (f_diameter (mk' None))) eqn:Hdia; [done|].
  cbn. by intros [= <-].
Qed.



(** ** The vendor of a filament *)

Lemma filament_row_validated (d : gmap pykey (pyval F))
    (mk : option Z → FilamentInput F) (st : state) :
  filament_input (PDict d) = Return mk →
  filament_row (PDict d) st =
    (vendor_id ← resolve_vendor (field d "vendor.name");
     await_filament_create (mk vendor_id);;
     incr_created;;
     logger_info) st.
Proof. intros Hmk. by rewrite filament_row_input, Hmk. Qed.

Lemma filament_input_vendor_id (item_data : pyval F)
    (mk : option Z → FilamentInput F) (vendor_id : option Z) :
  filament_input item_data = Return mk → f_vendor_id (mk vendor_id) = vendor_id.
Proof.
  unfold filament_input, filament_extract, filament_required.
  exc_inv. simpl.
  repeat (destruct (is_None _); [done|]). by intros [= <-].
Qed.

Lemma calls_made_create {A} (c : call F) (op : DB → exc A * DB) (st : state) :
  calls_made (await c op;; incr_created;; logger_info) st = [c].
Proof.
  unfold calls_made. rewrite create_run.
  destruct (op (db st)) as [[a|e] d']; simpl; by rewrite drop_app_length.
Qed.

Lemma calls_made_none {A} (m : M A) (st : state) (e : exn) :
  m st = (Raise e, st) → calls_made m st = [].
Proof. intros H. unfold calls_made. rewrite H. simpl. apply drop_all. Qed.

(** C10, as the code has it. In [import_filaments] the vendor lookup is
    made only with a [vendor.name] that is a true value, and then with that
    value: a non-empty string, but also a non-zero number or a non-empty
    list. When [vendor.name] is absent, [None], the empty string or any
    other false value, no lookup is made and a filament that gets created
    has a null vendor identifier. For a record that passes the extraction
    and the required-field checks: without a true [vendor.name] the
    creation call follows at once, with a null vendor identifier; with
    one, the lookup is the first call, its first match gives the vendor
    identifier, and when it finds nothing the filament is likewise created
    with a null vendor identifier. The record is counted as created
    whenever the creation call returns. *)
Theorem vendor_lookup_is_optional (d : gmap pykey (pyval F)) (st : state) :
  (d !! Some "vendor.name" = None
   ∨ d !! Some "vendor.name" = Some PNone
   ∨ d !! Some "vendor.name" = Some (PStr "") →
   truthy (field d "vendor.name") = false)
  ∧ (∀ c, c ∈ calls_made (filament_row (PDict d)) st →
          is_find c = true →
          c = CallVendorFind (field d "vendor.name")
          ∧ truthy (field d "vendor.name") = true)
  ∧ (truthy (field d "vendor.name") = false →
     ∀ a, CallFilamentCreate a ∈ calls_made (filament_row (PDict d)) st →
          f_vendor_id a = None)
  ∧ (∀ mk,
       filament_input (PDict d) = Return mk →
       (truthy (field d "vendor.name") = false →
        filament_row (PDict d) st =
          (await_filament_create (mk None);; incr_created;; logger_info) st)
       ∧ (truthy (field d "vendor.name") = true →
          ∃ l, calls_made (filament_row (PDict d)) st
                 = CallVendorFind (field d "vendor.name") :: l)
       ∧ (truthy (field d "vendor.name") = true →
          ∀ found n d',
            vendor_find (field d "vendor.name") (db st) = (Return (found, n), d') →
            filament_row (PDict d) st =
              (await_filament_create (mk (Vendor_id <$> head found));;
               incr_created;; logger_info)
                (after_call (CallVendorFind (field d "vendor.name")) d' st))
       ∧ (truthy (field d "vendor.name") = true →
          ∀ n d',
            vendor_find (field d "vendor.name") (db st) = (Return ([], n), d') →
            filament_row (PDict d) st =
              (await_filament_create (mk None);; incr_created;; logger_info)
                (after_call (CallVendorFind (field d "vendor.name")) d' st))
       ∧ (∀ vendor_id st0 f d',
            filament_create (mk vendor_id) (db st0) = (Return f, d') →
            ∃ st1,
              (await_filament_create (mk vendor_id);; incr_created;; logger_info)
                st0 = (Return (), st1)
              ∧ created (result st1) = S (created (result st0)))).
Proof.
  assert (Hfalse : ∀ mk, filament_input (PDict d) = Return mk →
     truthy (field d "vendor.name") = false →
     filament_row (PDict d) st =
       (await_filament_create (mk None);; incr_created;; logger_info) st).
  { intros mk Hmk Ht. rewrite (filament_row_validated d mk st Hmk).
    unfold mbind at 1, M_bind at 1.
    by rewrite resolve_vendor_run, Ht. }
  assert (Hfound : ∀ mk, filament_input (PDict d) = Return mk →
     truthy (field d "vendor.name") = true →
     ∀ found n d',
       vendor_find (field d "vendor.name") (db st) = (Return (found, n), d') →
       filament_row (PDict d) st =
         (await_filament_create (mk (Vendor_id <$> head found));;
          incr_created;; logger_info)
           (after_call (CallVendorFind (field d "vendor.name")) d' st)).
  { intros mk Hmk Ht found n d' Hfind.
    rewrite (filament_row_validated d mk st Hmk).
    unfold mbind at 1, M_bind at 1.
    by rewrite resolve_vendor_run, Ht, Hfind. }
  split; [|split; [|split]].
  - unfold field. by intros [-> | [-> | ->]].
  - intros c Hc.
    destruct (filament_input (PDict d)) as [mk|e] eqn:Hmk.
    + assert (HP : Forall (λ c, is_find c = true →
                     c = CallVendorFind (field d "vendor.name")
                     ∧ truthy (field d "vendor.name") = true)
                   (calls_made (filament_row (PDict d)) st)).
      { apply only_calls_made.
        eapply only_calls_ext; [intros st0; by apply filament_row_validated|].
        apply only_calls_bind; [by apply only_calls_resolve_vendor|].
        intros vendor_id.
        apply only_calls_bind; [by apply only_calls_await|].
        intros _. apply only_calls_created. }
      rewrite Forall_forall in HP. by apply HP.
    + rewrite (calls_made_none _ st e) in Hc; [by apply elem_of_nil in Hc|].
      by rewrite filament_row_input, Hmk.
  - intros Ht a Ha.
    destruct (filament_input (PDict d)) as [mk|e] eqn:Hmk.
    + unfold calls_made in Ha. rewrite (Hfalse mk eq_refl Ht) in Ha.
      fold (calls_made (await_filament_create (mk None);; incr_created;; logger_info)
              st) in Ha.
      unfold await_filament_create in Ha. rewrite calls_made_create in Ha.
      apply list_elem_of_singleton in Ha. injection Ha as ->.
      by apply (filament_input_vendor_id (PDict d)).
    + rewrite (calls_made_none _ st e) in Ha; [by apply elem_of_nil in Ha|].
      by rewrite filament_row_input, Hmk.
  - intros mk Hmk. split; [|split; [|split; [|split]]].
    + by apply Hfalse.
    + intros Ht. unfold calls_made.
      rewrite (filament_row_validated d mk st Hmk).
      unfold mbind at 1, M_bind at 1. rewrite resolve_vendor_run, Ht.
      destruct (vendor_find (field d "vendor.name") (db st))
        as [[[found n]|e] d']; cbn beta iota zeta.
      * unfold await_filament_create. rewrite create_run.
        destruct (filament_create _ _) as [[f|e] d'']; simpl;
          rewrite <- app_assoc, drop_app_length; by eexists.
      * simpl. rewrite drop_app_length. by eexists.
    + by apply Hfound.
    + intros Ht n d' Hfind. apply (Hfound mk Hmk Ht [] n d' Hfind).
    + intros vendor_id st0 f d' Hcreate.
      unfold await_filament_create. rewrite create_run, Hcreate.
      by eexists.
Qed.

End RowShapes.

(** ** The reader on plain lines *)

Section CsvFacts.
Import Csv.

Lemma process_line_app (a b : string) (r : reader) :
  process_line r (a +:+ b) =
    match a with
    | EmptyString => process_line r b
    | String c a' => r' ← process_char r (Some c); process_line r' (a' +:+ b)
    end.
Proof. by destruct a. Qed.

(** A run of line break characters brings the parser to the start of the
    next record. *)
Lemma process_line_breaks (tail : string) (r : reader) :
  forallb is_newline (list_ascii_of_string tail) = true →
  unquoted r = true ∨ st r = EAT_CRNL →
  ∃ r', process_line r tail = Return r' ∧ st r' = START_RECORD.
Proof.
  revert r. induction tail as [|c tail IH]; intros r Hnl Hst.
  - simpl. unfold process_char, unquoted in *.
    destruct (st r) eqn:E; destruct Hst as [Hst|Hst]; try done;
      eexists; (split; [reflexivity|done]).
  - simpl in Hnl. apply andb_true_iff in Hnl as [Hc Hnl].
    simpl. 
    assert (∃ r1, process_char r (Some c) = Return r1 ∧ st r1 = EAT_CRNL)
      as (r1 & -> & Hr1).
    { unfold process_char, start_field, ends_line, unquoted in *.
      destruct (st r) eqn:E; destruct Hst as [Hst|Hst]; try done;
        rewrite ?Hc; eexists; (split; [reflexivity|done]). }
    cbn [mbind exc_bind]. apply IH; auto.
Qed.

Lemma plain_char_spec (c : ascii) :
  plain_char c = true → is_newline c = false ∧ Ascii.eqb c quotechar = false.
Proof.
  unfold plain_char. intros H. apply andb_true_iff in H as [H1 H2].
  by rewrite negb_true_iff in H1, H2.
Qed.

Lemma process_char_plain (c : ascii) (r : reader) :
  plain_char c = true → unquoted r = true →
  (field_len r < field_limit)%N →
  ∃ r1, process_char r (Some c) = Return r1
        ∧ unquoted r1 = true
        ∧ (field_len r1 <= N.succ (field_len r))%N.
Proof.
  intros Hc Hst Hlen. apply plain_char_spec in Hc as [Hnl Hq].
  assert (Hadd : ∀ s, ∃ r1, set_st s <$> add_char c r = Return r1
                    ∧ st r1 = s ∧ field_len r1 = N.succ (field_len r)).
  { intros s. unfold add_char.
    destruct (N.leb_spec field_limit (field_len r)); [lia|].
    eexists. split; [reflexivity|]. done. }
  unfold process_char, start_field, ends_line, unquoted in *.
  destruct (st r) eqn:E; try done; rewrite ?Hnl, ?Hq;
    destruct (Ascii.eqb c delimiter).
  all: try (eexists; split; [reflexivity|]; split; [done|simpl; lia]).
  all: try (destruct (Hadd IN_FIELD) as (r1 & -> & Hs & Hl); exists r1;
            rewrite Hs, Hl; split; [done|]; split; [done|lia]).
  unfold add_char. destruct (N.leb_spec field_limit (field_len r)); [lia|].
  eexists. split; [reflexivity|]. simpl. rewrite E. split; [done|lia].
Qed.

Lemma process_plain_line (line tail : string) (r : reader) :
  plain line = true →
  forallb is_newline (list_ascii_of_string tail) = true →
  unquoted r = true →
  (field_len r + N.of_nat (String.length line) < field_limit)%N →
  ∃ r', process_line r (line +:+ tail) = Return r' ∧ st r' = START_RECORD.
Proof.
  revert r. induction line as [|c line IH]; intros r Hplain Htail Hst Hlen.
  - apply process_line_breaks; auto.
  - simpl in Hplain. apply andb_true_iff in Hplain as [Hc Hplain].
    rewrite process_line_app.
    destruct (process_char_plain c r Hc Hst) as (r1 & -> & Hst1 & Hlen1).
    { simpl String.length in Hlen. lia. }
    cbn [mbind exc_bind]. apply IH; auto.
    simpl String.length in Hlen. lia.
Qed.

Lemma splitlines_one (s : string) :
  forallb (λ c, negb (Ascii.eqb c "010")) (list_ascii_of_string s) = true →
  (s ≠ "" → splitlines s = [s]) ∧ splitlines (s +:+ LF) = [s +:+ LF].
Proof.
  induction s as [|c s IH]; intros H.
  - split; [done|]. reflexivity.
  - simpl in H. apply andb_true_iff in H as [Hc H].
    rewrite negb_true_iff in Hc. destruct (IH H) as [IH1 IH2].
    split.
    + intros _. simpl. rewrite Hc. destruct s as [|c' s']; [done|].
      by rewrite IH1.
    + change (String c s +:+ LF) with (String c (s +:+ LF)).
      simpl. by rewrite Hc, IH2.
Qed.

Lemma plain_no_lf (s : string) :
  plain s = true →
  forallb (λ c, negb (Ascii.eqb c "010")) (list_ascii_of_string s) = true.
Proof.
  induction s as [|c s IH]; [done|]. simpl. intros H.
  apply andb_true_iff in H as [Hc H]. rewrite IH by done.
  apply plain_char_spec in Hc as [Hnl _]. unfold is_newline in Hnl.
  apply orb_false_iff in Hnl as [-> _]. done.
Qed.

Lemma append_nil_r (s : string) : s +:+ "" = s.
Proof. induction s as [|c s IH]; [done|]. by rewrite PyStrFacts.app_cons, IH. Qed.

Lemma append_assoc (a b c : string) : (a +:+ b) +:+ c = a +:+ (b +:+ c).
Proof.
  induction a as [|x a IH]; [done|]. by rewrite !PyStrFacts.app_cons, IH.
Qed.

Lemma forallb_append (P : ascii → bool) (a b : string) :
  forallb P (list_ascii_of_string (a +:+ b))
    = forallb P (list_ascii_of_string a) && forallb P (list_ascii_of_string b).
Proof.
  induction a as [|x a IH]; [done|].
  rewrite PyStrFacts.app_cons. simpl. by rewrite IH, andb_assoc.
Qed.

(** One line of plain text, with or without its line terminator, is read
    as one row. *)
Lemma csv_reader_header_line (line tail : string) :
  plain line = true →
  (N.of_nat (String.length line) < field_limit)%N →
  tail = "" ∨ tail = LF ∨ tail = CRLF →
  line +:+ tail ≠ "" →
  ∃ header, csv_reader (line +:+ tail) = Row header Done.
Proof.
  intros Hplain Hlen Htail Hne.
  assert (Hlines : splitlines (line +:+ tail) = [line +:+ tail]).
  { pose proof (plain_no_lf line Hplain) as Hlf.
    destruct Htail as [-> | [-> | ->]].
    - rewrite append_nil_r in *. by apply splitlines_one.
    - by apply splitlines_one.
    - change CRLF with (String "013" "" +:+ LF). rewrite <- append_assoc.
      apply splitlines_one. by rewrite forallb_append, Hlf. }
  assert (Hbreaks : forallb is_newline (list_ascii_of_string tail) = true).
  { by destruct Htail as [-> | [-> | ->]]. }
  destruct (process_plain_line line tail fresh Hplain Hbreaks eq_refl)
    as (r' & Hrun & Hst); [simpl; lia|].
  exists (fields r'). unfold csv_reader. rewrite Hlines. simpl.
  rewrite Hrun. unfold at_start_record. by rewrite Hst.
Qed.

Lemma DictReader_list_blank {F} (fieldnames : list string) (rest : rows) :
  blank_rows rest = true → DictReader_list (F:=F) fieldnames rest = Return [].
Proof.
  induction rest as [|row rest IH|msg]; simpl; [done| |done].
  destruct row; [apply IH|done].
Qed.

End CsvFacts.

(** ** The record parsers *)

Section ParserProperties.
Context {F : Type} `{!PyBuiltins F} `{!Store F}.

Lemma splitlines_nil (content : string) :
  Csv.splitlines content = [] ↔ content = "".
Proof.
  split; [|by intros ->].
  destruct content as [|c s]; [done|]. simpl.
  destruct (Ascii.eqb c "010"); [done|]. by destruct (Csv.splitlines s).
Qed.

(** After the end-of-line marker the parser is at the start of a record
    or inside a quoted field that goes on in the next line. *)
Lemma process_char_eol (r r' : Csv.reader) :
  Csv.process_char r None = Return r' →
  Csv.st r' = Csv.START_RECORD ∨ Csv.st r' = Csv.IN_QUOTED_FIELD.
Proof.
  unfold Csv.process_char.
  destruct (Csv.st r) eqn:E; simpl; intros [= <-]; simpl; auto.
Qed.

Lemma process_line_end (line : string) (r r' : Csv.reader) :
  Csv.process_line r line = Return r' →
  Csv.st r' = Csv.START_RECORD ∨ Csv.st r' = Csv.IN_QUOTED_FIELD.
Proof.
  revert r. induction line as [|c line IH]; intros r; simpl.
  - apply process_char_eol.
  - destruct (Csv.process_char r (Some c)) as [r1|e]; [|done]. apply IH.
Qed.

Lemma read_rows_quoted (lines : list string) (r : Csv.reader) :
  Csv.st r = Csv.IN_QUOTED_FIELD → Csv.read_rows r lines ≠ Csv.Done.
Proof.
  revert r. induction lines as [|l ls IH]; intros r Hq; simpl.
  - unfold Csv.pending. rewrite Hq. by rewrite orb_true_r.
  - destruct (Csv.process_line r l) as [r'|e] eqn:Hl; [|done].
    destruct (process_line_end _ _ _ Hl) as [Hs|Hs];
      unfold Csv.at_start_record; rewrite Hs; [done|by apply IH].
Qed.

(** The reader yields no row at all exactly on the empty text. *)
Lemma csv_reader_done (content : string) :
  Csv.csv_reader content = Csv.Done ↔ content = "".
Proof.
  split; [|by intros ->].
  unfold Csv.csv_reader. intros H. apply splitlines_nil.
  destruct (Csv.splitlines content) as [|l ls]; [done|]. exfalso.
  simpl in H. destruct (Csv.process_line Csv.fresh l) as [r'|e] eqn:Hl; [|done].
  destruct (process_line_end _ _ _ Hl) as [Hs|Hs];
    unfold Csv.at_start_record in H; rewrite Hs in H; [done|].
  by apply (read_rows_quoted ls r').
Qed.

Lemma DictReader_list_raises (fieldnames : list string) (reader : Csv.rows)
    (e : exn) :
  DictReader_list (F:=F) fieldnames reader = Raise e → is_ImportDataError e = false.
Proof.
  induction reader as [|row rest IH|msg]; simpl; [done| |by intros [= <-]].
  destruct row as [|c row]; [done|].
  unfold mbind, exc_bind. destruct (DictReader_list fieldnames rest); [done|].
  intros [= <-]. by apply IH.
Qed.

Lemma parse_csv_no_headers (content : string) :
  parse_csv (F:=F) content = Raise (ImportDataError "CSV file has no headers")
  ↔ content = "".
Proof.
  unfold parse_csv. split.
  - intros H. apply csv_reader_done.
    destruct (Csv.csv_reader content) as [|header rest|msg]; [done| |done].
    simpl in H. by apply DictReader_list_raises in H.
  - by intros ->.
Qed.

(** An import of no record at all. *)
Lemma import_nothing (body : pyval F → M unit) (st : state) :
  (new_result;; import_rows body (enumerate [] 1);; get_result) st
    = (Return ImportResult_init, set_result ImportResult_init st).
Proof. done. Qed.

(** C6. [parse_csv] raises the no-headers error exactly when the text
    has no line at all, that is, when it is empty; [_do_import] then
    fails with status 400 and leaves the state as it was, so that no
    record has been processed. When the reader yields the header row and
    after it nothing, or blank rows only, [parse_csv] returns the empty
    list, and the import of vendors, filaments or spools answers with
    created 0, failed 0 and no error. A text that is one non-empty line of
    characters other than quotes and line breaks, with or without its line
    terminator, is such a text. *)
Theorem csv_no_headers_iff_no_line (content : string) :
  (parse_csv (F:=F) content = Raise (ImportDataError "CSV file has no headers")
   ↔ Csv.splitlines content = [])
  ∧ (Csv.splitlines content = [] ↔ content = "")
  ∧ (Csv.splitlines content = [] →
     ∀ resource st,
       _do_import resource content CSV st
         = (Raise (HTTPException 400 "CSV file has no headers"), st))
  ∧ (∀ header rest,
       Csv.csv_reader content = Csv.Row header rest →
       Csv.blank_rows rest = true →
       parse_csv (F:=F) content = Return []
       ∧ ∀ resource st,
           resource = "vendors" ∨ resource = "filaments" ∨ resource = "spools" →
           _do_import resource content CSV st
             = (Return {| resp_created := 0; resp_failed := 0; resp_errors := [] |},
                set_result ImportResult_init st))
  ∧ (∀ line tail,
       content = line +:+ tail →
       Csv.plain line = true →
       (N.of_nat (String.length line) < Csv.field_limit)%N →
       tail = "" ∨ tail = Csv.LF ∨ tail = Csv.CRLF →
       content ≠ "" →
       ∃ header, Csv.csv_reader content = Csv.Row header Csv.Done).
Proof.
  split; [|split; [|split; [|split]]].
  - rewrite splitlines_nil. apply parse_csv_no_headers.
  - apply splitlines_nil.
  - intros Hno resource st. apply splitlines_nil in Hno as ->. done.
  - intros header rest Hrows Hblank.
    assert (Hparse : parse_csv (F:=F) content = Return []).
    { unfold parse_csv. rewrite Hrows. simpl. by apply DictReader_list_blank. }
    split; [done|]. intros resource st Hres.
    unfold _do_import, try_except. rewrite bind_lift, Hparse.
    destruct Hres as [-> | [-> | ->]]; done.
  - intros line tail -> Hplain Hlen Htail Hne.
    by apply csv_reader_header_line.
Qed.

(** C7. [parse_json] needs the whole text to decode, and to decode to an
    array: it then returns the elements of the array as they are, one
    record each, in order, and the orchestrator runs on exactly these.
    When the decoded value is not an array (an object, a string, a number,
    a truth value, [None]) it raises the not-an-array error, and
    [_do_import] fails with status 400 and leaves the state as it was.
    When the text does not decode, the exception of the decoder passes
    through and [_do_import] fails as well. *)
Theorem json_must_be_array (content : string) :
  (∀ l, json_loads content = Return (PList l) →
        parse_json content = Return l
        ∧ ∀ st,
            runs_on content "vendors" (import_vendors l) st
            ∧ runs_on content "filaments" (import_filaments l) st
            ∧ runs_on content "spools" (import_spools l) st)
  ∧ (∀ v, json_loads content = Return v →
          is_array v = false →
          parse_json content
            = Raise (ImportDataError "JSON must contain an array of objects")
          ∧ ∀ resource st,
              _do_import resource content JSON st
                = (Raise (HTTPException 400 "JSON must contain an array of objects"),
                   st))
  ∧ (∀ e, json_loads content = Raise e →
          parse_json content = Raise e
          ∧ ∀ resource st, ∃ status detail,
              _do_import resource content JSON st
                = (Raise (HTTPException status detail), st)).
Proof.
  split; [|split].
  - intros l Hload.
    assert (Hparse : parse_json content = Return l).
    { unfold parse_json. by rewrite Hload. }
    split; [done|]. intros st.
    destruct (import_covered vendor_row l st counts_vendor_row)
      as (r1 & st1 & Hrun1 & _).
    destruct (import_covered filament_row l st counts_filament_row)
      as (r2 & st2 & Hrun2 & _).
    destruct (import_covered spool_row l st counts_spool_row)
      as (r3 & st3 & Hrun3 & _).
    change (import_vendors l st = (Return r1, st1)) in Hrun1.
    change (import_filaments l st = (Return r2, st2)) in Hrun2.
    change (import_spools l st = (Return r3, st3)) in Hrun3.
    repeat split; eexists _, _; (split; [eassumption|]);
      unfold _do_import, try_except; rewrite bind_lift, Hparse;
      cbn [String.eqb Ascii.eqb Bool.eqb]; unfold mbind at 1, M_bind at 1.
    + by rewrite Hrun1.
    + by rewrite Hrun2.
    + by rewrite Hrun3.
  - intros v Hload Harr.
    assert (Hparse : parse_json content
              = Raise (ImportDataError "JSON must contain an array of objects")).
    { unfold parse_json. rewrite Hload. by destruct v. }
    split; [done|]. intros resource st.
    unfold _do_import, try_except. by rewrite bind_lift, Hparse.
  - intros e Hload.
    assert (Hparse : parse_json content = Raise e).
    { unfold parse_json. by rewrite Hload. }
    split; [done|]. intros resource st.
    unfold _do_import, try_except. rewrite bind_lift, Hparse.
    destruct (is_ImportDataError e); by eexists _, _.
Qed.

End ParserProperties.

(** * Further properties *)

(** ** The field coercer, again *)

Section CoercerLaws.
Context {F : Type} `{!PyBuiltins F}.

(** X1. Coercing twice is coercing once: what [_parse_value] returns for
    a value and a kind is returned unchanged when it is coerced again to
    the same kind. *)
Theorem parse_value_idempotent (value : pyval F) (field_type : string) :
  (r ← _parse_value value field_type; _parse_value r field_type)
    = _parse_value value field_type.
Proof.
  destruct value as [| | | |s| |]; try reflexivity.
  unfold _parse_value at 2 3.
  destruct (String.eqb s "") eqn:E0; [reflexivity|].
  destruct (PyStr.mem (PyStr.lower s) ["none"; "null"; ""]) eqn:E1; [reflexivity|].
  destruct (String.eqb field_type "int") eqn:E2.
  { unfold int_of_str, mbind, exc_bind. destruct (py_int s); reflexivity. }
  destruct (String.eqb field_type "float") eqn:E3.
  { unfold float_of_str, mbind, exc_bind. destruct (py_float s); reflexivity. }
  destruct (String.eqb field_type "bool") eqn:E4; [reflexivity|].
  unfold mbind, exc_bind, _parse_value. by rewrite E0, E1, E2, E3, E4.
Qed.

(** X2. Only strings are coerced. A value that is not a string (a JSON
    number, truth value, array or object) is returned as it is for every
    kind, without being checked against the kind. A string coerced to one
    of the kinds int, float and bool never comes back as a string; an
    integer or a float that comes back is what [int] or [float] made of
    the string, and a string that comes back is the input itself. *)
Theorem parse_value_unchecked (value : pyval F) (field_type : string) :
  ((∀ s, value ≠ PStr s) → _parse_value value field_type = Return value)
  ∧ (∀ s r, value = PStr s → _parse_value value field_type = Return r →
       (PyStr.mem field_type ["int"; "float"; "bool"] = true → ∀ s', r ≠ PStr s')
       ∧ (∀ z, r = PInt z → field_type = "int" ∧ py_int s = Some z)
       ∧ (∀ f, r = PFloat f → field_type = "float" ∧ py_float s = Some f)
       ∧ (∀ s', r = PStr s' → s' = s)).
Proof.
  split.
  - intros Hns. destruct value; try reflexivity. by destruct (Hns s).
  - intros s r ->. unfold _parse_value.
    assert (Hmem : (field_type =? "int")%string = false →
                   (field_type =? "float")%string = false →
                   (field_type =? "bool")%string = false →
                   PyStr.mem field_type ["int"; "float"; "bool"] = false).
    { intros E2 E3 E4. unfold PyStr.mem. cbn. by rewrite E2, E3, E4. }
    destruct (String.eqb s "") eqn:E0;
      [intros [= <-]; by repeat split|].
    destruct (PyStr.mem (PyStr.lower s) ["none"; "null"; ""]) eqn:E1;
      [intros [= <-]; by repeat split|].
    destruct (String.eqb field_type "int") eqn:E2.
    { apply String.eqb_eq in E2. subst. unfold int_of_str.
      destruct (py_int s) eqn:Ei; cbn; intros [= <-];
        (split; [done|split; [|split]]); intros ? [=]; by subst. }
    destruct (String.eqb field_type "float") eqn:E3.
    { apply String.eqb_eq in E3. subst. unfold float_of_str.
      destruct (py_float s) eqn:Ei; cbn; intros [= <-];
        (split; [done|split; [|split]]); intros ? [=]; by subst. }
    destruct (String.eqb field_type "bool") eqn:E4;
      [intros [= <-]; by repeat split|].
    intros [= <-]. split; [by rewrite Hmem|].
    (split; [|split]); intros ? [=]; by subst.
Qed.

End CoercerLaws.

(** ** Records by their shape *)

Section RecordShapes.
Context {F : Type} `{!PyBuiltins F} `{!Store F}.

(** The loop over the items stops with an [AttributeError] at the key
    [None], wherever in the dictionary it comes. *)
Lemma extract_fold_none (d : gmap pykey (pyval F)) :
  is_Some (d !! None) →
  map_fold extra_step (Return ∅) d = no_attribute (@PNone F) "startswith".
Proof.
  apply (map_fold_weak_ind (λ r m,
    (m !! None = None → ∃ extra, r = Return extra)
    ∧ (is_Some (m !! None) → r = no_attribute (@PNone F) "startswith"))).
  - split; [by eexists|]. rewrite lookup_empty. by intros [? ?].
  - intros key value m r Hfresh [IH1 IH2]. destruct key as [key|].
    + rewrite lookup_insert_ne by done. split.
      * intros Hnone. destruct (IH1 Hnone) as [extra ->].
        unfold extra_step. cbn [mbind exc_bind].
        destruct (PyStr.startswith key "extra."); by eexists.
      * intros Hsome. by rewrite (IH2 Hsome).
    + rewrite lookup_insert_eq. split; [done|]. intros _.
      by destruct (IH1 Hfresh) as [extra ->].
Qed.

Lemma get_parsed_dict (d : gmap pykey (pyval F)) (key field_type : string) :
  ∃ v, get_parsed (PDict d) key field_type = Return v.
Proof.
  unfold get_parsed, dict_get. cbn [mbind exc_bind].
  apply parse_value_returns.
Qed.

Lemma get_stripped_textual (d : gmap pykey (pyval F)) (key : string) :
  textual d → ∃ o, get_stripped (PDict d) key = Return o.
Proof.
  intros Ht. unfold get_stripped, dict_get, dict_get_default.
  cbn [mbind exc_bind].
  destruct (d !! Some key) as [v|] eqn:Hk; [|by eexists].
  pose proof (Ht key v Hk) as Hv.
  destruct v as [| | | |s| |]; try done; [by eexists|].
  simpl. destruct (negb _); by eexists.
Qed.

(** Reads every field of the record [PDict d] that the goal mentions. *)
Ltac read_fields d Ht :=
  repeat match goal with
         | |- context [get_stripped (PDict d) ?k] =>
             destruct (get_stripped_textual d k Ht) as [? ->]
         end;
  repeat match goal with
         | |- context [get_parsed (PDict d) ?k ?t] =>
             destruct (get_parsed_dict d k t) as [? ->]
         end;
  unfold dict_get, mbind, exc_bind; cbn beta iota.

Lemma filament_extract_textual (d : gmap pykey (pyval F)) :
  textual d →
  match _extract_extra_fields (PDict d) with
  | Return _ => ∃ mk, filament_extract (PDict d) = Return mk
  | Raise e => filament_extract (PDict d) = Raise e
  end.
Proof.
  intros Ht. unfold filament_extract. read_fields d Ht.
  destruct (_extract_extra_fields (PDict d)); by eauto.
Qed.

Lemma spool_input_textual (d : gmap pykey (pyval F)) :
  textual d →
  match _extract_extra_fields (PDict d) with
  | Return _ => ∃ mk, spool_input (PDict d) = Return mk
  | Raise e => spool_input (PDict d) = Raise e
  end.
Proof.
  intros Ht. unfold spool_input. read_fields d Ht.
  destruct (_extract_extra_fields (PDict d)); by eauto.
Qed.

Lemma vendor_input_named (d : gmap pykey (pyval F)) (s : string) :
  default (PStr "") (d !! Some "name") = PStr s →
  match _extract_extra_fields (PDict d) with
  | Return _ =>
      if String.eqb (PyStr.strip s) "" then
        vendor_input (PDict d) = Raise (ImportDataError "'name' is required")
      else ∃ a, vendor_input (PDict d) = Return a ∧ v_name a = PyStr.strip s
  | Raise e => vendor_input (PDict d) = Raise e
  end.
Proof.
  intros Hname. unfold vendor_input, dict_get_default. rewrite Hname.
  read_fields d I. unfold str_strip. cbn beta iota.
  destruct (_extract_extra_fields (PDict d)); [|done].
  destruct (String.eqb (PyStr.strip s) ""); by eauto.
Qed.

(** What [DictReader] puts into the dictionary of a row. *)
Lemma zip_fold_lookup (l : list (string * string)) (acc : gmap pykey (pyval F)) :
  let d := foldl (λ d '(k, v), <[Some k := PStr v]> d) acc l in
  d !! None = acc !! None
  ∧ ∀ k v, d !! Some k = Some v → acc !! Some k = Some v ∨ ∃ s, v = PStr s.
Proof.
  revert acc. induction l as [|[k0 v0] l IH]; intros acc; simpl; [by auto|].
  destruct (IH (<[Some k0 := PStr v0]> acc)) as [Hnone Hstr].
  split; [by rewrite Hnone, lookup_insert_ne|].
  intros k v Hk. destruct (Hstr k v Hk) as [Hacc|?]; [|by right].
  destruct (decide (k0 = k)) as [->|Hne].
  - rewrite lookup_insert_eq in Hacc. injection Hacc as <-. right. by eexists.
  - rewrite lookup_insert_ne in Hacc by congruence. by left.
Qed.

Lemma pad_fold_lookup (l : list string) (acc : gmap pykey (pyval F)) :
  let d := foldl (λ d k, <[Some k := PNone]> d) acc l in
  d !! None = acc !! None
  ∧ ∀ k v, d !! Some k = Some v → acc !! Some k = Some v ∨ v = PNone.
Proof.
  revert acc. induction l as [|k0 l IH]; intros acc; simpl; [by auto|].
  destruct (IH (<[Some k0 := PNone]> acc)) as [Hnone Hstr].
  split; [by rewrite Hnone, lookup_insert_ne|].
  intros k v Hk. destruct (Hstr k v Hk) as [Hacc|?]; [|by right].
  destruct (decide (k0 = k)) as [->|Hne].
  - rewrite lookup_insert_eq in Hacc. injection Hacc as <-. by right.
  - rewrite lookup_insert_ne in Hacc by congruence. by left.
Qed.

Lemma DictReader_row_long (fieldnames row : list string) :
  length fieldnames < length row →
  ∃ d, DictReader_row (F:=F) fieldnames row = PDict d
       ∧ is_Some (d !! None)
       ∧ ∀ k v, d !! Some k = Some v → ∃ s, v = PStr s.
Proof.
  intros Hlen. unfold DictReader_row.
  apply Nat.ltb_lt in Hlen. rewrite Hlen.
  eexists. split; [reflexivity|]. split; [by rewrite lookup_insert_eq|].
  intros k v. rewrite lookup_insert_ne by done. intros Hk.
  destruct (zip_fold_lookup (zip fieldnames row) ∅) as [_ Hstr].
  destruct (Hstr k v Hk) as [Hempty|?]; [|done].
  by rewrite lookup_empty in Hempty.
Qed.

Lemma DictReader_row_short (fieldnames row : list string) :
  length row ≤ length fieldnames →
  ∃ d, DictReader_row (F:=F) fieldnames row = PDict d
       ∧ d !! None = None ∧ textual d.
Proof.
  intros Hlen. unfold DictReader_row.
  apply Nat.ltb_ge in Hlen. rewrite Hlen.
  eexists. split; [reflexivity|].
  destruct (zip_fold_lookup (zip fieldnames row) ∅) as [Hnone Hstr].
  match goal with
  | |- context [foldl ?f ?acc ?l] =>
      destruct (pad_fold_lookup l acc) as [Hnone' Hpad]
  end.
  split; [by rewrite Hnone', Hnone, lookup_empty|].
  intros k v Hk. destruct (Hpad k v Hk) as [Hacc| ->]; [|done].
  destruct (Hstr k v Hacc) as [Hempty|[s ->]]; [|done].
  by rewrite lookup_empty in Hempty.
Qed.

Lemma DictReader_row_textual (fieldnames row : list string) :
  ∃ d, DictReader_row (F:=F) fieldnames row = PDict d ∧ textual d.
Proof.
  destruct (decide (length fieldnames < length row)) as [Hlen|Hlen].
  - destruct (DictReader_row_long fieldnames row Hlen) as (d & -> & _ & Hstr).
    exists d. split; [done|]. intros k v Hk. by destruct (Hstr k v Hk) as [s ->].
  - destruct (DictReader_row_short fieldnames row) as (d & -> & _ & Ht); [lia|].
    by exists d.
Qed.

Lemma row_fails_on_none_key (d : gmap pykey (pyval F)) :
  is_Some (d !! None) →
  (∀ k v, d !! Some k = Some v → ∃ s, v = PStr s) →
  ∀ st,
    vendor_row (PDict d) st = (no_attribute (@PNone F) "startswith", st)
    ∧ filament_row (PDict d) st = (no_attribute (@PNone F) "startswith", st)
    ∧ spool_row (PDict d) st = (no_attribute (@PNone F) "startswith", st).
Proof.
  intros Hnone Hstr st.
  assert (Ht : textual d).
  { intros k v Hk. by destruct (Hstr k v Hk) as [s ->]. }
  assert (He : _extract_extra_fields (PDict d)
               = no_attribute (@PNone F) "startswith").
  { by apply extract_fold_none. }
  split; [|split].
  - rewrite vendor_row_input.
    assert (∃ s, default (PStr "") (d !! Some "name") = PStr s) as [s Hs].
    { destruct (d !! Some "name") as [v|] eqn:Hk; [|by eexists].
      destruct (Hstr _ _ Hk) as [s ->]. by eexists. }
    pose proof (vendor_input_named d s Hs) as Hv. rewrite He in Hv.
    unfold no_attribute in Hv. by rewrite Hv.
  - rewrite filament_row_input. unfold filament_input.
    pose proof (filament_extract_textual d Ht) as Hf. rewrite He in Hf.
    unfold no_attribute in Hf. by rewrite Hf.
  - rewrite spool_row_input.
    pose proof (spool_input_textual d Ht) as Hs. rewrite He in Hs.
    unfold no_attribute in Hs. by rewrite Hs.
Qed.

(** X3. [_extract_extra_fields] raises on a dictionary exactly when the
    dictionary has the key [None] (the key under which [csv.DictReader]
    files the surplus cells of a row), and what it raises then is the
    [AttributeError] of [None.startswith], whatever else the dictionary
    holds. *)
Theorem extract_requires_string_keys (d : gmap pykey (pyval F)) (e : exn) :
  _extract_extra_fields (PDict d) = Raise e
  ↔ is_Some (d !! None)
    ∧ e = AttributeError "'NoneType' object has no attribute 'startswith'".
Proof.
  split.
  - intros He. destruct (d !! None) as [v|] eqn:Hnone.
    + split; [by eexists|].
      unfold _extract_extra_fields in He.
      rewrite (extract_fold_none d) in He by by rewrite Hnone.
      by injection He as <-.
    + destruct (extract_fold d Hnone) as (extra & Hextra & _).
      unfold _extract_extra_fields in He. by rewrite Hextra in He.
  - intros [Hsome ->]. by apply extract_fold_none.
Qed.

(** X4. A record that is not a dictionary (a number, a string, a list or
    null in a JSON array) fails in each of the three orchestrators with
    the [AttributeError] of its missing [get], as one failure detail and
    before any call on the store; the loop goes on with the next record. *)
Theorem non_object_record_fails (item : pyval F) (i : nat)
    (rest : list (nat * pyval F)) (st : state) :
  (∀ d, item ≠ PDict d) →
  let msg := "'" +:+ type_name item +:+ "' object has no attribute 'get'" in
  fails_before_any_call vendor_row i item msg rest st
  ∧ fails_before_any_call filament_row i item msg rest st
  ∧ fails_before_any_call spool_row i item msg rest st.
Proof.
  intros Hitem msg.
  repeat split; apply (fails_when_input_raises _ _ _ (AttributeError msg)).
  - rewrite vendor_row_input. by destruct item; try done; destruct (Hitem d).
  - rewrite filament_row_input. by destruct item; try done; destruct (Hitem d).
  - rewrite spool_row_input. by destruct item; try done; destruct (Hitem d).
Qed.

(** X5. Every record [parse_csv] returns is a dictionary whose values
    under string keys are strings or [None]: no other type of value comes
    out of a CSV file. *)
Theorem parse_csv_records_textual (content : string) (l : list (pyval F)) :
  parse_csv content = Return l →
  Forall (λ item, ∃ d, item = PDict d ∧ textual d) l.
Proof.
  unfold parse_csv.
  destruct (DictReader_fieldnames (Csv.csv_reader content))
    as [[[fieldnames|] reader]|e]; cbn [mbind exc_bind]; [|done|done].
  clear content. revert l.
  induction reader as [|row rest IH|msg]; intros l; simpl;
    [|destruct row as [|c row]|done].
  - intros [= <-]. constructor.
  - apply IH.
  - destruct (DictReader_list fieldnames rest) as [l'|e]; [|done].
    cbn [mbind exc_bind]. intros [= <-]. constructor; [|by apply IH].
    apply DictReader_row_textual.
Qed.

(** X6. A CSV row with more cells than the header has names fails in
    each of the three orchestrators, whatever its cells hold: the record
    [DictReader] builds for it has the key [None], on which
    [_extract_extra_fields] raises. The failure detail carries the message
    of that [AttributeError], and no call on the store is made. *)
Theorem csv_long_row_fails (fieldnames row : list string) (i : nat)
    (rest : list (nat * pyval F)) (st : state) :
  length fieldnames < length row →
  let item := DictReader_row fieldnames row in
  let msg := "'NoneType' object has no attribute 'startswith'" in
  fails_before_any_call vendor_row i item msg rest st
  ∧ fails_before_any_call filament_row i item msg rest st
  ∧ fails_before_any_call spool_row i item msg rest st.
Proof.
  intros Hlen item msg. unfold item.
  destruct (DictReader_row_long fieldnames row Hlen) as (d & -> & Hnone & Hstr).
  destruct (row_fails_on_none_key d Hnone Hstr st) as (Hv & Hf & Hs).
  repeat split; by apply (fails_when_input_raises _ _ _ (AttributeError msg)).
Qed.


End RecordShapes.

(** ** What reaches the store *)

Section StoreCalls.
Context {F : Type} `{!PyBuiltins F} `{!Store F}.




Lemma only_calls_try_except {A} (P : call F → Prop) (body : M A)
    (handler : exn → M A) :
  only_calls P body → (∀ e, only_calls P (handler e)) →
  only_calls P (try_except body handler).
Proof.
  intros Hb Hh st. unfold try_except.
  destruct (Hb st) as (l1 & H1 & HP1).
  destruct (body st) as [[a|e] st1]; simpl in *; [by exists l1|].
  destruct (Hh e st1) as (l2 & H2 & HP2).
  exists (l1 ++ l2). rewrite H2, H1, app_assoc.
  split; [done|]. by apply Forall_app.
Qed.

Lemma only_calls_import_rows (P : call F → Prop) (body : pyval F → M unit)
    (rows : list (nat * pyval F)) :
  (∀ item, only_calls P (body item)) → only_calls P (import_rows body rows).
Proof.
  intros Hbody. unfold import_rows.
  induction rows as [|[i item] rows IH]; simpl.
  - by apply only_calls_pure.
  - apply only_calls_bind; [|by intros _].
    apply only_calls_try_except; [done|]. intros e.
    by apply only_calls_pure.
Qed.

Lemma only_calls_import (P : call F → Prop) (body : pyval F → M unit)
    (data : list (pyval F)) :
  (∀ item, only_calls P (body item)) →
  only_calls P (new_result;; import_rows body (enumerate data 1);; get_result).
Proof.
  intros Hbody.
  apply only_calls_bind; [by apply only_calls_pure|]. intros _.
  apply only_calls_bind; [by apply only_calls_import_rows|]. intros _.
  by apply only_calls_pure.
Qed.


(** X8. Each orchestrator calls none but its own collaborators: a run of
    [import_vendors] makes vendor creation calls only; a run of
    [import_filaments] looks up vendors and creates filaments, and never
    creates a vendor; a run of [import_spools] looks up filaments and
    creates spools, and never creates a filament or a vendor. *)
Theorem orchestrators_call_their_own_store (data : list (pyval F)) (st : state) :
  Forall (λ c, ∃ a, c = CallVendorCreate a)
         (calls_made (import_vendors data) st)
  ∧ Forall (λ c, (∃ n, c = CallVendorFind n) ∨ (∃ a, c = CallFilamentCreate a))
           (calls_made (import_filaments data) st)
  ∧ Forall (λ c, (∃ n, c = CallFilamentFind n) ∨ (∃ a, c = CallSpoolCreate a))
           (calls_made (import_spools data) st).
Proof.
  repeat split; apply only_calls_made, only_calls_import; intros item.
  - apply only_calls_vendor_row. by eauto.
  - apply only_calls_filament_row; by eauto.
  - apply only_calls_spool_row; by eauto.
Qed.


(** X10. Whatever the batch, a filament is only ever created with a
    density and a diameter: in every filament creation call of a run of
    [import_filaments] neither of the two is [None]. *)
Theorem filaments_have_density_and_diameter (data : list (pyval F)) (st : state)
    (a : FilamentInput F) :
  CallFilamentCreate a ∈ calls_made (import_filaments data) st →
  f_density a ≠ PNone ∧ f_diameter a ≠ PNone.
Proof.
  intros Hin.
  assert (HP : Forall (λ c, ∀ a, c = CallFilamentCreate a →
                 f_density a ≠ PNone ∧ f_diameter a ≠ PNone)
               (calls_made (import_filaments data) st)).
  { apply only_calls_made, only_calls_import. intros item.
    apply only_calls_filament_row; [done|]. intros mk vid Hmk ? [= <-].
    apply filament_input_inv in Hmk as (Hex & Hden & Hdia).
    destruct (filament_extract_required item mk vid Hex) as [Hd1 Hd2].
    destruct (filament_extract_required item mk None Hex) as [Hd3 Hd4].
    rewrite Hd1 in Hd3. rewrite Hd2 in Hd4.
    injection Hd3 as Hd3. injection Hd4 as Hd4. rewrite Hd3, Hd4.
    split; intros E; by rewrite E in *. }
  rewrite Forall_forall in HP. by apply (HP _ Hin).
Qed.

End StoreCalls.

(** ** The outcome of one record *)

Section RecordOutcomes.
Context {F : Type} `{!PyBuiltins F} `{!Store F}.

Lemma filter_first {A} (p : A → bool) (l : list A) (x : A) (xs : list A) :
  List.filter p l = x :: xs →
  ∃ pre post, l = pre ++ x :: post
              ∧ Forall (λ y, p y = false) pre ∧ p x = true.
Proof.
  induction l as [|y l IH]; simpl; [done|].
  destruct (p y) eqn:Hy.
  - intros [= -> _]. exists [], l. by repeat split.
  - intros Hf. destruct (IH Hf) as (pre & post & -> & Hpre & Hx).
    exists (y :: pre), post. repeat split; [|done]. by constructor.
Qed.

(** A spool record whose fields were read: the lookup decides. *)
Lemma spool_row_resolved (d : gmap pykey (pyval F))
    (mk : Z → SpoolInput F) (st : state) :
  spool_input (PDict d) = Return mk →
  spool_row (PDict d) st =
    match resolve_filament (field d "filament.name")
                           (field d "filament.vendor.name") st with
    | (Return (Some filament_id), st1) =>
        (await_spool_create (mk filament_id);; incr_created;; logger_info) st1
    | (Return None, st1) =>
        (Raise (ImportDataError ("Could not find filament: "
                                   +:+ py_str (field d "filament.name"))), st1)
    | (Raise e, st1) => (Raise e, st1)
    end.
Proof.
  intros Hmk. rewrite spool_row_input, Hmk.
  rewrite bind_lift. cbn [dict_get]. rewrite bind_lift. cbn [dict_get].
  unfold mbind at 1, M_bind at 1. fold (field d "filament.name").
  fold (field d "filament.vendor.name").
  by destruct (resolve_filament _ _ st) as [[[id|]|e] st1].
Qed.

(** X11. A spool record whose fields were read and whose filament name
    is a true value is created with the identifier of the first filament
    the lookup returned that passes the filter on the vendor name, right
    after the lookup. Without a true [filament.vendor.name] that is the
    first filament found; with one, it is the first filament found that
    has a vendor whose name equals it, and every filament found before it
    has no vendor or a vendor of another name. *)
Theorem spool_takes_first_match (d : gmap pykey (pyval F)) (st : state)
    (mk : Z → SpoolInput F) (found : list Filament) (n : nat) (d' : DB)
    (f : Filament) (fs : list Filament) :
  spool_input (PDict d) = Return mk →
  truthy (field d "filament.name") = true →
  filament_find (field d "filament.name") (db st) = (Return (found, n), d') →
  filter_by_vendor (field d "filament.vendor.name") found = f :: fs →
  spool_row (PDict d) st =
    (await_spool_create (mk (Filament_id f));; incr_created;; logger_info)
      (after_call (CallFilamentFind (field d "filament.name")) d' st)
  ∧ (truthy (field d "filament.vendor.name") = false → head found = Some f)
  ∧ (truthy (field d "filament.vendor.name") = true →
     ∃ pre post v,
       found = pre ++ f :: post
       ∧ Filament_vendor f = Some v
       ∧ field d "filament.vendor.name" = PStr (Vendor_name v)
       ∧ Forall (λ g, vendor_matches (field d "filament.vendor.name") g = false)
                pre).
Proof.
  intros Hmk Hname Hfind Hfilter. split; [|split].
  - rewrite (spool_row_resolved d mk st Hmk).
    by rewrite resolve_filament_run, Hname, Hfind, Hfilter.
  - intros Hv. unfold filter_by_vendor in Hfilter. rewrite Hv in Hfilter.
    by rewrite Hfilter.
  - intros Hv. unfold filter_by_vendor in Hfilter. rewrite Hv in Hfilter.
    destruct (filter_first _ _ _ _ Hfilter) as (pre & post & -> & Hpre & Hf).
    unfold vendor_matches in Hf.
    destruct (Filament_vendor f) as [v|] eqn:Hfv; [|done].
    exists pre, post, v. repeat split; [|done].
    unfold eq_str in Hf.
    destruct (field d "filament.vendor.name"); try done.
    apply String.eqb_eq in Hf. by subst.
Qed.

(** X12. A vendor record that passes the reading of its fields and the
    check on its name leads to exactly one call, the creation call. When
    the call returns, the record counts as created; when it raises, the
    record fails with the message of the exception as its failure detail.
    Either way the database stays as the call left it (nothing is undone)
    and the loop goes on with the next record. *)
Theorem vendor_creation_outcome (item : pyval F) (a : VendorInput F) (i : nat)
    (rest : list (nat * pyval F)) (st : state) :
  vendor_input item = Return a →
  import_rows vendor_row ((i, item) :: rest) st =
    import_rows vendor_row rest
      {| result :=
           match (vendor_create a (db st)).1 with
           | Return _ =>
               {| created := S (created (result st));
                  failed := failed (result st);
                  errors := errors (result st) |}
           | Raise e => ImportResult_add_error i item (str_exn e) (result st)
           end;
         db := (vendor_create a (db st)).2;
         calls := calls st ++ [CallVendorCreate a] |}.
Proof.
  intros Ha. rewrite import_rows_cons, vendor_row_input, Ha.
  unfold await_vendor_create. rewrite create_run.
  by destruct (vendor_create a (db st)) as [[v|e] d'].
Qed.

End RecordOutcomes.

(** ** Batches in parts *)

Section Batches.
Context {F : Type} `{!PyBuiltins F} `{!Store F}.

Lemma set_result_twice (r r' : ImportResult F) (st : state) :
  set_result r (set_result r' st) = set_result r st.
Proof. done. Qed.

Lemma framed_ret {A} (a : A) : framed (mret a).
Proof. done. Qed.
Lemma framed_lift {A} (c : exc A) : framed (lift c).
Proof. done. Qed.
Lemma framed_raise_if (b : bool) (e : exn) : framed (raise_if b e).
Proof. by destruct b. Qed.
Lemma framed_await {A} (c : call F) (op : DB → exc A * DB) : framed (await c op).
Proof. intros st r. unfold await. simpl. by destruct (op (db st)). Qed.

Lemma framed_bind {A B} (m : M A) (f : A → M B) :
  framed m → (∀ a, framed (f a)) → framed (m ≫= f).
Proof.
  intros Hm Hf st r. unfold mbind, M_bind. rewrite Hm.
  destruct (m st) as [[a|e] st1]; [|done]. apply Hf.
Qed.

Lemma tallies_raise {A} (e : exn) : tallies (raise (A:=A) e).
Proof. done. Qed.
Lemma tallies_created : tallies (incr_created;; logger_info).
Proof. done. Qed.
Lemma tallies_bind {A B} (m : M A) (f : A → M B) :
  framed m → (∀ a, tallies (f a)) → tallies (m ≫= f).
Proof.
  intros Hm Hf st r. unfold mbind, M_bind. rewrite Hm.
  destruct (m st) as [[a|e] st1]; [|done]. apply Hf.
Qed.

Lemma framed_resolve_vendor (vendor_name : pyval F) :
  framed (resolve_vendor vendor_name).
Proof.
  unfold resolve_vendor. destruct (truthy vendor_name); [|done].
  apply framed_bind; [apply framed_await|].
  intros [[|v l] n]; apply framed_ret.
Qed.

Lemma framed_resolve_filament (filament_name vendor_name : pyval F) :
  framed (resolve_filament filament_name vendor_name).
Proof.
  unfold resolve_filament. destruct (truthy filament_name); [|done].
  apply framed_bind; [apply framed_await|].
  intros [l n]. destruct (filter_by_vendor vendor_name l); apply framed_ret.
Qed.

Create HintDb frames discriminated.
#[local] Hint Resolve framed_ret framed_lift framed_raise_if framed_await
  framed_resolve_vendor framed_resolve_filament
  tallies_raise tallies_created : frames.

Ltac tally :=
  repeat first
    [ solve [auto with frames]
    | apply tallies_bind; [solve [auto with frames] | intros ?] ].

Lemma tallies_vendor_row (item_data : pyval F) : tallies (vendor_row item_data).
Proof. unfold vendor_row, await_vendor_create. tally. Qed.

Lemma tallies_filament_row (item_data : pyval F) : tallies (filament_row item_data).
Proof. unfold filament_row, await_filament_create. tally. Qed.

Lemma tallies_spool_row (item_data : pyval F) : tallies (spool_row item_data).
Proof.
  unfold spool_row, await_spool_create. tally.
  match goal with |- tallies (match ?o with _ => _ end) => destruct o end; tally.
Qed.

Lemma import_rows_app (body : pyval F → M unit) (a b : list (nat * pyval F))
    (st st1 : state) :
  import_rows body a st = (Return (), st1) →
  import_rows body (a ++ b) st = import_rows body b st1.
Proof.
  revert st. induction a as [|[i item] a IH]; intros st; simpl.
  - by intros [= ->].
  - rewrite !import_rows_cons.
    destruct (body item st) as [[[]|e] st']; apply IH.
Qed.

Lemma enumerate_app {A} (l1 l2 : list A) (k : nat) :
  enumerate (l1 ++ l2) k = enumerate l1 k ++ enumerate l2 (length l1 + k).
Proof.
  revert k. induction l1 as [|x l1 IH]; intros k; simpl; [done|].
  by rewrite IH, Nat.add_succ_r.
Qed.

Lemma import_rows_shift (body : pyval F → M unit) (l : list (pyval F))
    (k n : nat) (st : state) (r r' : ImportResult F) :
  (∀ item, tallies (body item)) →
  ∃ c f errs stf,
    import_rows body (enumerate l k) (set_result r' st)
      = (Return (),
         set_result {| created := created r' + c; failed := failed r' + f;
                       errors := errors r' ++ errs |} stf)
    ∧ import_rows body (enumerate l (n + k)) (set_result r st)
      = (Return (),
         set_result {| created := created r + c; failed := failed r + f;
                       errors := errors r ++ (shift_row n <$> errs) |} stf).
Proof.
  intros Hbody. revert k st r r'.
  induction l as [|item l IH]; intros k st r r'.
  - exists 0, 0, [], st. simpl. rewrite !Nat.add_0_r, !app_nil_r.
    by destruct r, r'.
  - simpl. rewrite !import_rows_cons, !(Hbody item).
    destruct (body item st) as [[[]|e] st1].
    + destruct (IH (S k) st1
                  {| created := S (created r); failed := failed r;
                     errors := errors r |}
                  {| created := S (created r'); failed := failed r';
                     errors := errors r' |})
        as (c & f & errs & stf & H1 & H2).
      exists (S c), f, errs, stf. rewrite H1. rewrite Nat.add_succ_r in H2.
      rewrite H2. simpl. by rewrite !Nat.add_succ_r.
    + simpl result. rewrite !set_result_twice.
      destruct (IH (S k) st1
                  (ImportResult_add_error (n + k) item (str_exn e) r)
                  (ImportResult_add_error k item (str_exn e) r'))
        as (c & f & errs & stf & H1 & H2).
      exists c, (S f),
        ({| row := k; data := item; error := str_exn e |} :: errs), stf.
      rewrite H1. rewrite Nat.add_succ_r in H2. rewrite H2. simpl.
      by rewrite !Nat.add_succ_r, <- !app_assoc.
Qed.

Lemma import_split (body : pyval F → M unit) (l1 l2 : list (pyval F))
    (st : state) :
  (∀ item, counts (body item)) → (∀ item, tallies (body item)) →
  splits (λ data, new_result;; import_rows body (enumerate data 1);; get_result)
         l1 l2 st.
Proof.
  intros Hcounts Htallies.
  destruct (import_rows_spec body (enumerate l1 1)
              (set_result ImportResult_init st) Hcounts)
    as (st1 & errs1 & Hrun1 & _).
  destruct (import_rows_shift body l2 1 (length l1) st1 (result st1)
              ImportResult_init Htallies)
    as (c & f & errs & stf & H2 & H12).
  exists (result st1), st1. eexists _, _.
  split; [|split].
  - unfold mbind, M_bind, new_result, get_result. by rewrite Hrun1.
  - unfold mbind, M_bind, new_result, get_result. rewrite H2. reflexivity.
  - unfold mbind, M_bind, new_result, get_result.
    rewrite enumerate_app, (import_rows_app _ _ _ _ st1 Hrun1).
    replace st1 with (set_result (result st1) st1) at 1 by by destruct st1.
    rewrite H12. reflexivity.
Qed.

(** X13. A batch can be imported in two parts. For each orchestrator,
    importing [l1 ++ l2] leaves the store as importing [l1] and then [l2]
    does, makes the same calls, and returns the sums of the two counts
    and the failure details of [l1] followed by those of [l2] with their
    row numbers moved up by the length of [l1]: the outcome of a record
    does not depend on the records around it other than through the
    store. *)
Theorem import_in_two_parts (l1 l2 : list (pyval F)) (st : state) :
  splits import_vendors l1 l2 st
  ∧ splits import_filaments l1 l2 st
  ∧ splits import_spools l1 l2 st.
Proof.
  split; [|split].
  - exact (import_split vendor_row l1 l2 st
             counts_vendor_row tallies_vendor_row).
  - exact (import_split filament_row l1 l2 st
             counts_filament_row tallies_filament_row).
  - exact (import_split spool_row l1 l2 st
             counts_spool_row tallies_spool_row).
Qed.

End Batches.

(** ** The endpoint module *)

Section Endpoint.
Context {F : Type} `{!PyBuiltins F} `{!Store F}.

Lemma length_app (a b : string) :
  String.length (a +:+ b) = String.length a + String.length b.
Proof.
  induction a as [|c a IH]; [done|]. rewrite PyStrFacts.app_cons. simpl. by rewrite IH.
Qed.

Lemma drop_app_plus (p s : string) (k : nat) :
  PyStr.drop (String.length p + k) (p +:+ s) = PyStr.drop k s.
Proof.
  induction p as [|c p IH]; [done|]. rewrite PyStrFacts.app_cons. simpl. apply IH.
Qed.

Lemma take_drop (k : nat) (s : string) :
  s = String.substring 0 k s +:+ PyStr.drop k s.
Proof.
  revert k. induction s as [|c s IH]; intros [|k]; simpl; try done.
  by rewrite PyStrFacts.app_cons, <- IH.
Qed.

Lemma endswith_app (name suffix : string) :
  PyStr.endswith (name +:+ suffix) suffix = true.
Proof.
  unfold PyStr.endswith. rewrite length_app.
  replace (String.length name + String.length suffix - String.length suffix)
    with (String.length name + 0) by lia.
  rewrite drop_app_plus. simpl. rewrite String.eqb_refl, andb_true_r.
  apply Nat.leb_le. lia.
Qed.

Lemma endswith_short (s suffix : string) :
  String.length s < String.length suffix → PyStr.endswith s suffix = false.
Proof.
  intros Hlen. unfold PyStr.endswith.
  apply Nat.leb_gt in Hlen. by rewrite Hlen.
Qed.

Lemma importer_returns (resource : string)
    (import : list (pyval F) → M (ImportResult F)) (data : list (pyval F))
    (st : state) :
  importer resource = Some import →
  returns (import data st) (λ r, covered data r ∧ rows_faithful data r).
Proof.
  unfold importer. intros Himp.
  assert (Hall : ∀ body, (∀ item, counts (body item)) →
    returns ((new_result;; import_rows body (enumerate data 1);; get_result) st)
            (λ r, covered data r ∧ rows_faithful data r)).
  { intros body Hbody.
    destruct (import_covered body data st Hbody) as (r & st' & Hrun & Hc).
    destruct (import_rows_faithful body data st Hbody) as (r' & st'' & Hrun' & Hf).
    rewrite Hrun in Hrun'. injection Hrun' as <- <-.
    by exists r, st'. }
  destruct (String.eqb resource "vendors").
  { injection Himp as <-. exact (Hall vendor_row counts_vendor_row). }
  destruct (String.eqb resource "filaments").
  { injection Himp as <-. exact (Hall filament_row counts_filament_row). }
  destruct (String.eqb resource "spools"); [|done].
  injection Himp as <-. exact (Hall spool_row counts_spool_row).
Qed.

Lemma do_import_run (resource content : string) (file_format : FileFormat)
    (st : state) :
  _do_import resource content file_format st =
    match parse_file file_format content with
    | Raise e =>
        if is_ImportDataError e then (Raise (HTTPException 400 (str_exn e)), st)
        else (Raise (HTTPException 500 ("Unexpected error: " +:+ str_exn e)), st)
    | Return data =>
        match importer resource with
        | None =>
            (Raise (HTTPException 400 ("Unknown resource type: " +:+ resource)), st)
        | Some import =>
            match import data st with
            | (Return r, st') => (Return (to_response r), st')
            | (Raise e, st') => (Raise e, st')
            end
        end
    end.
Proof.
  unfold _do_import, try_except. rewrite bind_lift.
  change (match file_format with
          | CSV => parse_csv content
          | JSON => parse_json content
          end) with (parse_file file_format content).
  destruct (parse_file file_format content) as [data|e];
    [|by destruct (is_ImportDataError e)].
  unfold mbind at 1, M_bind at 1.
  destruct (importer resource) as [import|] eqn:Himp.
  - destruct (importer_returns resource import data st Himp)
      as (r & st' & Hrun & _).
    unfold importer in Himp.
    destruct (String.eqb resource "vendors").
    { injection Himp as <-. by rewrite Hrun. }
    destruct (String.eqb resource "filaments").
    { injection Himp as <-. by rewrite Hrun. }
    destruct (String.eqb resource "spools"); [|done].
    injection Himp as <-. by rewrite Hrun.
  - unfold importer in Himp.
    destruct (String.eqb resource "vendors"); [done|].
    destruct (String.eqb resource "filaments"); [done|].
    by destruct (String.eqb resource "spools").
Qed.

(** X14. [_do_import] fails before any record is processed, or not at
    all. When the parser raises the module's own error the answer is
    status 400 with its message; when it raises anything else (the CSV
    reader or the JSON decoder rejecting the text) the answer is status
    500 with the message after "Unexpected error: "; when the text parses
    and the resource is none of the three, the answer is status 400 and
    names the resource. In these three cases the state is left as it was.
    Otherwise the orchestrator of the resource runs on the parsed records,
    returns, and its result is the response. *)
Theorem do_import_outcomes (resource content : string)
    (file_format : FileFormat) (st : state) :
  (∀ msg, parse_file file_format content = Raise (ImportDataError msg) →
     _do_import resource content file_format st
       = (Raise (HTTPException 400 msg), st))
  ∧ (∀ e, parse_file file_format content = Raise e →
       is_ImportDataError e = false →
       _do_import resource content file_format st
         = (Raise (HTTPException 500 ("Unexpected error: " +:+ str_exn e)), st))
  ∧ (∀ data, parse_file file_format content = Return data →
       importer resource = None →
       _do_import resource content file_format st
         = (Raise (HTTPException 400 ("Unknown resource type: " +:+ resource)),
            st))
  ∧ (∀ data import, parse_file file_format content = Return data →
       importer resource = Some import →
       ∃ r st',
         import data st = (Return r, st')
         ∧ _do_import resource content file_format st
             = (Return (to_response r), st')).
Proof.
  rewrite do_import_run. repeat split.
  - by intros msg ->.
  - by intros e -> ->.
  - by intros data -> ->.
  - intros data import -> Himp. rewrite Himp.
    destruct (importer_returns resource import data st Himp)
      as (r & st' & Hrun & _).
    exists r, st'. by rewrite Hrun.
Qed.

(** X15. A response of [_do_import] accounts for every parsed record:
    its two counts add up to the number of records, it lists one error
    for each failed record, and the rows of the errors increase strictly
    and lie between 1 and the number of records. *)
Theorem response_accounts_for_every_record (resource content : string)
    (file_format : FileFormat) (st st' : state) (resp : ImportResponse) :
  _do_import resource content file_format st = (Return resp, st') →
  ∃ data,
    parse_file file_format content = Return data
    ∧ resp_created resp + resp_failed resp = length data
    ∧ resp_failed resp = length (resp_errors resp)
    ∧ StronglySorted lt (item_row <$> resp_errors resp)
    ∧ Forall (λ e, 1 ≤ item_row e ≤ length data) (resp_errors resp).
Proof.
  rewrite do_import_run.
  destruct (parse_file file_format content) as [data|e];
    [|by destruct (is_ImportDataError e)].
  destruct (importer resource) as [import|] eqn:Himp; [|done].
  destruct (importer_returns resource import data st Himp)
    as (r & st1 & Hrun & (Hsum & Hfailed & _) & (Hrows & _ & Hsub)).
  rewrite Hrun. intros [= <- <-]. exists data. split; [done|].
  simpl. rewrite length_fmap. split; [done|]. split; [done|].
  apply sublist_enumerate in Hsub as [_ Hsorted].
  rewrite <- list_fmap_compose. rewrite detail_rows in Hsorted.
  split; [done|].
  apply Forall_fmap, Forall_forall. intros e He. simpl.
  destruct (Hrows e He) as [Hle Hlook].
  apply lookup_lt_Some in Hlook. lia.
Qed.


(** X16. [_detect_format] goes by the end of the file name alone: a name
    that ends in ".csv" is CSV, one that ends in ".json" is JSON, whatever
    comes before; a name of fewer than four characters (the empty name of
    an upload without one among them) is refused; and a format is only
    ever detected for a name that ends in its extension. *)
Theorem detect_format_by_extension (name : string) :
  _detect_format (name +:+ ".csv") = Return CSV
  ∧ _detect_format (name +:+ ".json") = Return JSON
  ∧ (String.length name < 4 →
     _detect_format name
       = Raise (ValueError "Unsupported file format. Use .csv or .json files."))
  ∧ (∀ file_format, _detect_format name = Return file_format →
       4 ≤ String.length name
       ∧ ∃ stem, name = stem +:+ match file_format with
                                 | CSV => ".csv"
                                 | JSON => ".json"
                                 end).
Proof.
  unfold _detect_format. split; [|split; [|split]].
  - by rewrite endswith_app.
  - rewrite endswith_app.
    replace (PyStr.endswith (name +:+ ".json") ".csv") with false; [done|].
    unfold PyStr.endswith. rewrite length_app. simpl String.length.
    replace (String.length name + 5 - 4) with (String.length name + 1) by lia.
    rewrite drop_app_plus. simpl. by rewrite andb_false_r.
  - intros Hlen. rewrite !endswith_short; simpl; [done|lia..].
  - assert (Hsplit : ∀ suffix, PyStr.endswith name suffix = true →
              String.length suffix ≤ String.length name
              ∧ ∃ stem, name = stem +:+ suffix).
    { intros suffix Hends. unfold PyStr.endswith in Hends.
      apply andb_true_iff in Hends as [Hlen Heq].
      apply Nat.leb_le in Hlen. apply String.eqb_eq in Heq.
      split; [done|].
      remember (String.length name - String.length suffix) as k eqn:Hk.
      exists (String.substring 0 k name). rewrite <- Heq. apply take_drop. }
    intros file_format.
    destruct (PyStr.endswith name ".csv") eqn:Hcsv.
    { intros [= <-]. by apply (Hsplit ".csv") in Hcsv. }
    destruct (PyStr.endswith name ".json") eqn:Hjson; [|done].
    intros [= <-]. apply (Hsplit ".json") in Hjson as [Hlen Hstem].
    split; [simpl in Hlen; lia|done].
Qed.

Context (decode_utf8 : string → exc string).


End Endpoint.

(** ** The older copy of the module *)

Section LegacyModule.
Context {F : Type} `{!PyBuiltins F} `{!Store F}.

Section Rows.
Context (ImportError : string → exn).
Hypothesis ImportError_str : ∀ msg, str_exn (ImportError msg) = msg.

Lemma same_outcome_refl (x : exc unit * state) : same_outcome x x.
Proof. split; [done|]. by destruct x.1. Qed.

(** The computation a chain of binds runs first. *)
Ltac first_run t :=
  lazymatch t with
  | match ?c with Return _ => _ | Raise _ => _ end => first_run c
  | _ => t
  end.

(** Runs the two bodies side by side, one field after the other. *)
Ltac same_rows :=
  change (@Legacy.get_parsed F _) with (@get_parsed F _);
  change (Legacy._extract_extra_fields ?x ?k) with (_extract_extra_fields x);
  unfold mbind, M_bind, exc_bind, lift, mret, M_ret, exc_ret;
  cbn beta iota;
  repeat lazymatch goal with
         | |- same_outcome (match ?c with Return _ => _ | Raise _ => _ end) _ =>
             let h := first_run c in
             destruct h; cbn beta iota; [|apply same_outcome_refl]
         end.

(** The checks: the two bodies raise exceptions of different classes
    with the same message, or go on in the same way. *)
Ltac same_end :=
  unfold raise_if, raise;
  repeat match goal with
         | |- context [if ?b then _ else _] => destruct b
         end;
  first [ apply same_outcome_refl
        | split; [done|simpl; by rewrite ImportError_str] ].

Lemma legacy_vendor_row (item : pyval F) (st : state) :
  same_outcome (Legacy.vendor_row ImportError item st) (vendor_row item st).
Proof.
  unfold Legacy.vendor_row, vendor_row.
  destruct item; try apply same_outcome_refl.
  cbn [dict_get]. same_rows. same_end.
Qed.

Lemma legacy_filament_row (item : pyval F) (st : state) :
  same_outcome (Legacy.filament_row ImportError item st) (filament_row item st).
Proof.
  unfold Legacy.filament_row, filament_row. same_rows. same_end.
Qed.

Lemma legacy_spool_row (item : pyval F) (st : state) :
  same_outcome (Legacy.spool_row ImportError item st) (spool_row item st).
Proof.
  unfold Legacy.spool_row, spool_row. same_rows.
  destruct (resolve_filament _ _ st) as [[[id|]|e] st1];
    try apply same_outcome_refl.
  same_end.
Qed.

Lemma legacy_import_rows_cons (body : pyval F → M unit) (i : nat)
    (item : pyval F) (rows : list (nat * pyval F)) (st : state) :
  Legacy.import_rows body ((i, item) :: rows) st =
    match body item st with
    | (Return _, st1) => Legacy.import_rows body rows st1
    | (Raise e, st1) =>
        Legacy.import_rows body rows
          (set_result (ImportResult_add_error i item (str_exn e) (result st1)) st1)
    end.
Proof.
  unfold Legacy.import_rows. simpl for_each.
  unfold mbind at 1, M_bind at 1, try_except.
  by destruct (body item st) as [[[]|e] st1].
Qed.

Lemma legacy_import_rows (body body' : pyval F → M unit)
    (rows : list (nat * pyval F)) (st : state) :
  (∀ item st, same_outcome (body item st) (body' item st)) →
  Legacy.import_rows body rows st = import_rows body' rows st.
Proof.
  intros Hsame. revert st.
  induction rows as [|[i item] rows IH]; intros st; [done|].
  rewrite legacy_import_rows_cons, import_rows_cons.
  destruct (Hsame item st) as [Hst Hout].
  destruct (body item st) as [[[]|e] st1], (body' item st) as [[[]|e'] st1'];
    simpl in Hst, Hout; try done; subst st1'.
  - apply IH.
  - rewrite Hout. apply IH.
Qed.

Lemma legacy_import (body body' : pyval F → M unit) (data : list (pyval F))
    (st : state) :
  (∀ item st, same_outcome (body item st) (body' item st)) →
  (new_result;; Legacy.import_rows body (enumerate data 1);; get_result) st
    = (new_result;; import_rows body' (enumerate data 1);; get_result) st.
Proof.
  intros Hsame. unfold mbind, M_bind, new_result.
  by rewrite (legacy_import_rows body body' _ _ Hsame).
Qed.

End Rows.

(** X18. The orchestrators of [spoolman/import_data.py] do what those of
    [spoolman/data_import.py] do: on every batch and from every state,
    [import_vendors], [import_filaments] and [import_spools] of the older
    module return the same result (counts, rows, records and messages of
    the failure details), make the same calls on the store and leave it in
    the same state. The exception class of the older module is not
    observed, its message is; the set of known fields and the read of
    [id] change nothing. *)
Theorem legacy_module_agrees (ImportError : string → exn)
    (data : list (pyval F)) (st : state) :
  (∀ msg, str_exn (ImportError msg) = msg) →
  Legacy.import_vendors ImportError data st = import_vendors data st
  ∧ Legacy.import_filaments ImportError data st = import_filaments data st
  ∧ Legacy.import_spools ImportError data st = import_spools data st.
Proof.
  intros Hstr. split; [|split].
  - exact (legacy_import (Legacy.vendor_row ImportError) vendor_row data st
             (legacy_vendor_row ImportError Hstr)).
  - exact (legacy_import (Legacy.filament_row ImportError) filament_row data st
             (legacy_filament_row ImportError Hstr)).
  - exact (legacy_import (Legacy.spool_row ImportError) spool_row data st
             (legacy_spool_row ImportError Hstr)).
Qed.

(** X19. The parsers and helpers of the older module agree with the
    current ones. Its [parse_csv] and [parse_json] return a list of
    records exactly when the current ones return it; where the current
    ones raise the no-headers and the not-an-array error, the older ones
    raise their own exception with the same message; its [_parse_value]
    is the same function, and its [_extract_extra_fields] returns what the
    current one returns, whatever set of known fields it is given. *)
Theorem legacy_helpers_agree (ImportError : string → exn) :
  (∀ content l,
     Legacy.parse_csv ImportError content = Return l
     ↔ parse_csv (F:=F) content = Return l)
  ∧ (∀ content l,
       Legacy.parse_json ImportError content = Return l
       ↔ parse_json (F:=F) content = Return l)
  ∧ (∀ content,
       parse_csv (F:=F) content = Raise (ImportDataError "CSV file has no headers") →
       Legacy.parse_csv (F:=F) ImportError content
         = Raise (ImportError "CSV file has no headers"))
  ∧ (∀ content v,
       json_loads (F:=F) content = Return v → is_array v = false →
       Legacy.parse_json (F:=F) ImportError content
         = Raise (ImportError "JSON must contain an array of objects"))
  ∧ (∀ value field_type,
       Legacy._parse_value (F:=F) value field_type = _parse_value value field_type)
  ∧ (∀ data known_fields,
       Legacy._extract_extra_fields (F:=F) data known_fields
         = _extract_extra_fields data).
Proof.
  split; [|split; [|split; [|split; [|split]]]].
  - intros content l. unfold Legacy.parse_csv, parse_csv.
    destruct (DictReader_fieldnames (Csv.csv_reader content))
      as [[[fieldnames|] reader]|e]; by cbn [mbind exc_bind].
  - intros content l. unfold Legacy.parse_json, parse_json.
    destruct (json_loads content) as [v|e]; cbn [mbind exc_bind]; [|done].
    by destruct v.
  - intros content. unfold Legacy.parse_csv, parse_csv.
    destruct (DictReader_fieldnames (Csv.csv_reader content))
      as [[[fieldnames|] reader]|e] eqn:Hf; cbn [mbind exc_bind]; [|done|].
    + intros Hraise. by apply DictReader_list_raises in Hraise.
    + unfold DictReader_fieldnames in Hf.
      destruct (Csv.csv_reader content); try done. by injection Hf as <-.
  - intros content v Hload Harr. unfold Legacy.parse_json. rewrite Hload.
    by destruct v.
  - done.
  - done.
Qed.

End LegacyModule.

(** * Worked examples on the in-memory store *)

Section Worked.
Import Example.

Lemma parse_value_never_raises_witness :
  _parse_value (F:=Dec) (PStr "NULL") "int" = Return PNone
  ∧ _parse_value (F:=Dec) (PStr "12a") "int" = Return PNone
  ∧ _parse_value (F:=Dec) (PStr "1.2.3") "float" = Return PNone.
Proof.
  split; [|split].
  - apply (proj1 (proj2 (parse_value_never_raises (PStr "NULL") "int"))).
    right. right. exists "NULL". split; [reflexivity|]. right. reflexivity.
  - apply (proj1 (proj2 (proj2 (parse_value_never_raises (PStr "12a") "int")))
             "12a"); reflexivity.
  - apply (proj2 (proj2 (proj2 (parse_value_never_raises (PStr "1.2.3") "float")))
             "1.2.3"); reflexivity.
Defined.

(** The string "none" is none of "true", "1", "yes", and for the kind
    "bool" it gives [None], not [False]. *)
Lemma parse_value_bool_counterexample :
  ¬ (∀ s : string,
       _parse_value (F:=Dec) (PStr s) "bool"
         = Return (PBool (PyStr.mem (PyStr.lower s) ["true"; "1"; "yes"]))).
Proof. intros H. specialize (H "none"). vm_compute in H. discriminate H. Qed.


Lemma csv_no_headers_iff_no_line_witness :
  Csv.splitlines "" = []
  ∧ _do_import "vendors" "" CSV (start stocked)
      = (Raise (HTTPException 400 "CSV file has no headers"), start stocked)
  ∧ (∃ header, Csv.csv_reader header_only = Csv.Row header Csv.Done)
  ∧ Csv.csv_reader header_only
      = Csv.Row ["name"; "comment"; "empty_spool_weight"] Csv.Done
  ∧ parse_csv (F:=Dec) header_only = Return []
  ∧ _do_import "spools" header_only CSV (start stocked)
      = (Return {| resp_created := 0; resp_failed := 0; resp_errors := [] |},
         set_result ImportResult_init (start stocked)).
Proof.
  pose proof (csv_no_headers_iff_no_line (F:=Dec) "") as (_ & _ & Hempty & _).
  pose proof (csv_no_headers_iff_no_line (F:=Dec) header_only)
    as (_ & _ & _ & Hhdr & Hline).
  specialize (Hhdr ["name"; "comment"; "empty_spool_weight"] Csv.Done
                eq_refl eq_refl).
  destruct Hhdr as [Hparse Himport].
  split; [reflexivity|]. split; [apply Hempty; reflexivity|].
  split.
  { apply (Hline "name,comment,empty_spool_weight" Csv.LF);
      [reflexivity|reflexivity|reflexivity|by right; left|discriminate]. }
  split; [reflexivity|]. split; [exact Hparse|].
  apply Himport. right. right. reflexivity.
Defined.

Lemma json_must_be_array_witness :
  json_loads "[{}, 1]" = Return (PList [PDict ∅; PInt 1%Z])
  ∧ parse_json "[{}, 1]" = Return [PDict ∅; PInt 1%Z]
  ∧ json_loads "{}" = Return (PDict ∅)
  ∧ parse_json (F:=Dec) "{}"
      = Raise (ImportDataError "JSON must contain an array of objects")
  ∧ _do_import "vendors" "7" JSON (start stocked)
      = (Raise (HTTPException 400 "JSON must contain an array of objects"),
         start stocked)
  ∧ parse_json (F:=Dec) "[1," = Raise (DecodeError "Expecting value").
Proof.
  assert (Harray : json_loads "[{}, 1]" = Return (PList [PDict ∅; PInt 1%Z]))
    by (vm_compute; reflexivity).
  assert (Hobject : json_loads "{}" = Return (PDict (∅ : gmap pykey (pyval Dec))))
    by (vm_compute; reflexivity).
  assert (Hnumber : json_loads "7" = Return (PInt (F:=Dec) 7%Z))
    by (vm_compute; reflexivity).
  assert (Hbroken : json_loads (F:=Dec) "[1," = Raise (DecodeError "Expecting value"))
    by (vm_compute; reflexivity).
  split; [exact Harray|]. split.
  { apply (proj1 (json_must_be_array "[{}, 1]") _ Harray). }
  split; [exact Hobject|]. split.
  { apply (proj1 (proj2 (json_must_be_array "{}")) _ Hobject eq_refl). }
  split.
  { apply (proj1 (proj2 (json_must_be_array "7")) _ Hnumber eq_refl). }
  apply (proj2 (proj2 (json_must_be_array "[1,")) _ Hbroken).
Defined.

Lemma unresolved_filament_fails_witness :
  unresolved stray_spool (start stocked)
  ∧ ∃ msg st1,
      import_rows spool_row [(1, PDict stray_spool)] (start stocked)
        = (Return (), st1)
      ∧ result st1
          = ImportResult_add_error 1 (PDict stray_spool) msg ImportResult_init
      ∧ msg = "Could not find filament: PLA".
Proof.
  assert (H : unresolved stray_spool (start stocked)).
  { right. exists (filaments stocked), 1, stocked. split; reflexivity. }
  split; [exact H|].
  destruct (unresolved_filament_fails stray_spool (start stocked) 1 [] H)
    as (msg & st1 & Hrun & Hres & _ & _ & Hmsg).
  exists msg, st1. split; [exact Hrun|]. split; [exact Hres|].
  eapply Hmsg. vm_compute. reflexivity.
Defined.

Lemma unresolved_filament_counterexample :
  unresolved odd_spool (start stocked)
  ∧ (import_spools [PDict odd_spool] (start stocked)).1
      = Return {| created := 0; failed := 1;
                  errors := [{| row := 1; data := PDict odd_spool;
                                error := "'int' object has no attribute 'strip'" |}] |}.
Proof.
  split; [|vm_compute; reflexivity].
  right. exists [], 0, stocked. split; reflexivity.
Qed.



Lemma vendor_lookup_is_optional_witness :
  (∃ mk,
     filament_input (PDict plain_filament) = Return mk
     ∧ truthy (field plain_filament "vendor.name") = false
     ∧ filament_row (PDict plain_filament) (start stocked)
         = (await_filament_create (mk None);; incr_created;; logger_info)
             (start stocked))
  ∧ (∃ mk,
       filament_input (PDict orphan_filament) = Return mk
       ∧ vendor_find (PStr "Nobody") stocked = (Return ([], 0), stocked)
       ∧ filament_row (PDict orphan_filament) (start stocked)
           = (await_filament_create (mk None);; incr_created;; logger_info)
               (after_call (CallVendorFind (PStr "Nobody")) stocked
                  (start stocked))).
Proof.
  pose proof (vendor_lookup_is_optional plain_filament (start stocked))
    as (_ & _ & _ & Hplain).
  pose proof (vendor_lookup_is_optional orphan_filament (start stocked))
    as (_ & _ & _ & Horphan).
  split.
  - eexists. split; [vm_compute; reflexivity|]. split; [reflexivity|].
    refine (proj1 (Hplain _ _) _); reflexivity.
  - eexists. split; [vm_compute; reflexivity|]. split; [reflexivity|].
    refine (proj1 (proj2 (proj2 (proj2 (Horphan _ _)))) _ 0 stocked _);
      reflexivity.
Defined.

Lemma vendor_lookup_counterexample :
  dict_get numbered_vendor "vendor.name" = Return (PInt 5)
  ∧ calls (import_filaments [numbered_vendor] (start stocked)).2
      = [CallVendorFind (PInt 5)].
Proof. split; vm_compute; reflexivity. Qed.

(** ** Two batches of vendors *)

(** One valid record and one with a blank name: one creation, one failure
    detail, carrying the position of the failing record. *)
Example two_vendors_one_blank :
  (import_vendors [record [("name", PStr "Acme")]; PDict blank_vendor]
     (start empty_tables)).1
    = Return {| created := 1; failed := 1;
                errors := [{| row := 2; data := PDict blank_vendor;
                              error := "'name' is required" |}] |}.
Proof. vm_compute. reflexivity. Qed.

(** The extra attributes reach the creation call; a record without any
    passes [None]. *)
Example extra_passed_to_create :
  call_extra <$> calls (import_vendors
                          [PDict red_vendor; record [("name", PStr "Plain")]]
                          (start empty_tables)).2
    = [Some (<["color" := "red"]> (<["note" := ""]> ∅)); None].
Proof. vm_compute. reflexivity. Qed.

(** ** The integration tests of the repository, on the model *)

Example test_import_vendors_csv :
  (_do_import "vendors" vendors_csv CSV (start stocked)).1
    = Return {| resp_created := 2; resp_failed := 0; resp_errors := [] |}.
Proof. vm_compute. reflexivity. Qed.

Example test_import_filaments_csv :
  let run := _do_import "filaments" filaments_csv CSV (start stocked) in
  run.1 = Return {| resp_created := 2; resp_failed := 0; resp_errors := [] |}
  ∧ vendor_ids (calls run.2) = [Some 1%Z; Some 1%Z].
Proof. split; vm_compute; reflexivity. Qed.

Example test_import_filaments_missing_required :
  (_do_import "filaments" filaments_missing_required_csv CSV (start stocked)).1
    = Return {| resp_created := 0; resp_failed := 1;
                resp_errors := [{| item_row := 1;
                                   item_error := "'density' is required" |}] |}.
Proof. vm_compute. reflexivity. Qed.

End Worked.

(** * Further worked examples *)

Section WorkedFurther.
Import Example.


Lemma non_object_record_fails_witness :
  fails_before_any_call spool_row 1 (PInt 7)
    "'int' object has no attribute 'get'" [] (start stocked).
Proof.
  refine (proj2 (proj2 (non_object_record_fails (PInt 7) 1 [] (start stocked) _))).
  intros d. discriminate.
Defined.

Lemma parse_csv_records_textual_witness :
  ∃ l, parse_csv (F:=Dec) vendors_csv = Return l
       ∧ length l = 2
       ∧ Forall (λ item, ∃ d, item = PDict d ∧ textual d) l.
Proof.
  eexists. split; [vm_compute; reflexivity|]. split; [reflexivity|].
  apply (parse_csv_records_textual vendors_csv). vm_compute. reflexivity.
Defined.

Lemma csv_long_row_fails_witness :
  fails_before_any_call vendor_row 3
    (DictReader_row ["name"; "comment"] ["Acme"; "fine"; "surplus"])
    "'NoneType' object has no attribute 'startswith'" [] (start empty_tables).
Proof.
  refine (proj1 (csv_long_row_fails ["name"; "comment"]
                   ["Acme"; "fine"; "surplus"] 3 [] (start empty_tables) _)).
  simpl. lia.
Defined.



Lemma filaments_have_density_and_diameter_witness :
  ∃ a, calls_made (import_filaments [PDict orphan_filament]) (start stocked)
         = [CallVendorFind (PStr "Nobody"); CallFilamentCreate a]
       ∧ f_density a ≠ PNone ∧ f_diameter a ≠ PNone.
Proof.
  assert (∃ a, calls_made (import_filaments [PDict orphan_filament]) (start stocked)
                 = [CallVendorFind (PStr "Nobody"); CallFilamentCreate a])
    as (a & Hcalls).
  { eexists. vm_compute. reflexivity. }
  exists a. split; [exact Hcalls|].
  apply (filaments_have_density_and_diameter [PDict orphan_filament]
           (start stocked) a).
  rewrite Hcalls. apply list_elem_of_further, list_elem_of_here.
Defined.

Lemma spool_takes_first_match_witness :
  ∃ mk,
    spool_input (PDict acme_spool) = Return mk
    ∧ spool_row (PDict acme_spool) (start stocked)
        = (await_spool_create (mk 2%Z);; incr_created;; logger_info)
            (after_call (CallFilamentFind (PStr "PLA")) stocked (start stocked)).
Proof.
  assert (∃ mk, spool_input (PDict acme_spool) = Return mk) as [mk Hmk].
  { eexists. vm_compute. reflexivity. }
  exists mk. split; [exact Hmk|].
  refine (proj1 (spool_takes_first_match acme_spool (start stocked) mk
                   (filaments stocked) 1 stocked _ [] Hmk eq_refl eq_refl eq_refl)).
Defined.

Lemma vendor_creation_outcome_witness :
  ∃ a,
    vendor_input padded_vendor = Return a
    ∧ import_rows vendor_row [(1, padded_vendor)] (start empty_tables)
        = import_rows vendor_row []
            {| result := {| created := 1; failed := 0; errors := [] |};
               db := (create_vendor a empty_tables).2;
               calls := [CallVendorCreate a] |}.
Proof.
  assert (∃ a, vendor_input padded_vendor = Return a ∧ v_name a = "Acme")
    as (a & Ha & Hname).
  { eexists. split; [vm_compute; reflexivity|reflexivity]. }
  exists a. split; [exact Ha|].
  rewrite (vendor_creation_outcome padded_vendor a 1 [] (start empty_tables) Ha).
  simpl. unfold create_vendor. rewrite Hname. reflexivity.
Defined.

Lemma response_accounts_for_every_record_witness :
  ∃ resp st' data,
    _do_import "filaments" filaments_missing_required_csv CSV (start stocked)
      = (Return resp, st')
    ∧ parse_file (F:=Dec) CSV filaments_missing_required_csv = Return data
    ∧ resp_created resp + resp_failed resp = length data
    ∧ resp_failed resp = length (resp_errors resp).
Proof.
  destruct (_do_import "filaments" filaments_missing_required_csv CSV
              (start stocked)) as [[resp|e] st'] eqn:Hrun;
    [|exfalso; vm_compute in Hrun; discriminate Hrun].
  destruct (response_accounts_for_every_record _ _ _ _ _ _ Hrun)
    as (data & Hparse & Hsum & Hfailed & _).
  exists resp, st', data.
  split; [reflexivity|]. split; [exact Hparse|]. split; [exact Hsum|exact Hfailed].
Defined.


Lemma legacy_module_agrees_witness :
  Legacy.import_vendors StoreError [PDict blank_vendor; padded_vendor]
    (start empty_tables)
  = import_vendors [PDict blank_vendor; padded_vendor] (start empty_tables).
Proof.
  refine (proj1 (legacy_module_agrees StoreError _ _ _)).
  intros msg. reflexivity.
Defined.

(** A batch of three vendors, imported at once and in two parts. *)
Example three_vendors_in_two_parts :
  let l1 := [PDict blank_vendor] in
  let l2 := [padded_vendor; PInt 7] in
  (import_vendors (l1 ++ l2) (start empty_tables)).1
    = Return {| created := 1; failed := 2;
                errors := [{| row := 1; data := PDict blank_vendor;
                              error := "'name' is required" |};
                           {| row := 3; data := PInt 7;
                              error := "'int' object has no attribute 'get'" |}] |}
  ∧ (import_vendors l2 (import_vendors l1 (start empty_tables)).2).1
    = Return {| created := 1; failed := 1;
                errors := [{| row := 2; data := PInt 7;
                              error := "'int' object has no attribute 'get'" |}] |}.
Proof. split; vm_compute; reflexivity. Qed.

(** ** The integration tests of the repository, through the endpoints *)

Example test_import_vendors_json :
  (import_vendors_endpoint decode_ascii (upload "vendors.json" vendors_json)
     (start stocked)).1
    = Return {| resp_created := 2; resp_failed := 0; resp_errors := [] |}.
Proof. vm_compute. reflexivity. Qed.

Example test_import_filaments_json :
  let run := import_filaments_endpoint decode_ascii
               (upload "filaments.json" filaments_json) (start stocked) in
  run.1 = Return {| resp_created := 2; resp_failed := 0; resp_errors := [] |}
  ∧ vendor_ids (calls run.2) = [Some 1%Z; Some 1%Z].
Proof. split; vm_compute; reflexivity. Qed.

Example test_import_vendors_csv_upload :
  (import_vendors_endpoint decode_ascii (upload "vendors.csv" vendors_csv)
     (start stocked)).1
    = Return {| resp_created := 2; resp_failed := 0; resp_errors := [] |}.
Proof. vm_compute. reflexivity. Qed.

(** An upload under a name without a known extension. *)
Example text_file_is_refused :
  ∃ detail,
    import_vendors_endpoint decode_ascii text_upload (start stocked)
      = (Raise (HTTPException 400 detail), start stocked).
Proof. eexists. vm_compute. reflexivity. Qed.

End WorkedFurther.
